(** * GDS Burp API: transaction records and replay

    A shallow embedding of [core/extlib/gds/pub/burp/burp.py]: the [Burp]
    class (one captured request with its response) and [Scanner.replay].

    Python strings are byte strings here ([string], a list of [ascii]);
    dictionaries keyed by strings are [gmap string _].  The header
    dictionaries are the only objects shared between a record and a replay,
    so they live in a store and records hold references to them. *)

From Stdlib Require Import ZArith Ascii String DecimalString.
From Stdlib Require DecimalNat DecimalPos DecimalZ.
From stdpp Require Import base option strings gmap fin_maps.

Local Open Scope Z_scope.
Local Open Scope string_scope.

(** ** Python strings *)

Module PyStr.

Definition code (c : ascii) : N := N_of_ascii c.

Definition islower (c : ascii) : bool := (97 <=? code c)%N && (code c <=? 122)%N.
Definition isupper (c : ascii) : bool := (65 <=? code c)%N && (code c <=? 90)%N.
Definition isdigit (c : ascii) : bool := (48 <=? code c)%N && (code c <=? 57)%N.
(** C locale [isspace]: space, and the range tab .. carriage return. *)
Definition isspace (c : ascii) : bool :=
  (code c =? 32)%N || ((9 <=? code c)%N && (code c <=? 13)%N).

Definition toupper (c : ascii) : ascii :=
  if islower c then ascii_of_N (code c - 32) else c.
Definition tolower (c : ascii) : ascii :=
  if isupper c then ascii_of_N (code c + 32) else c.

(** [str.title()]: the first letter of every run of letters is upper-cased,
    the others are lower-cased; [previous_is_cased] is the flag of the C
    loop. *)
Fixpoint title_from (previous_is_cased : bool) (s : string) : string :=
  match s with
  | EmptyString => EmptyString
  | String c rest =>
      if islower c then
        String (if previous_is_cased then c else toupper c) (title_from true rest)
      else if isupper c then
        String (if previous_is_cased then tolower c else c) (title_from true rest)
      else String c (title_from false rest)
  end.

Definition title (s : string) : string := title_from false s.

(** [len(s)] *)
Definition len (s : string) : Z := Z.of_nat (String.length s).

(** The first [n] characters of [s], all of [s] when it is shorter. *)
Fixpoint take (n : nat) (s : string) : string :=
  match n, s with
  | S m, String c rest => String c (take m rest)
  | _, _ => EmptyString
  end.

(** [s[:n]]: a negative bound counts from the end, and bounds are clipped
    to the string. *)
Definition slice_to (s : string) (n : Z) : string :=
  if (n <? 0)%Z then take (Z.to_nat (len s + n)) s else take (Z.to_nat n) s.

(** [needle in hay] *)
Fixpoint contains (needle hay : string) : bool :=
  String.prefix needle hay ||
  match hay with
  | EmptyString => false
  | String _ rest => contains needle rest
  end.

(** Truth value of a string: only the empty string is false. *)
Definition nonempty (s : string) : bool :=
  match s with EmptyString => false | String _ _ => true end.

Fixpoint lstrip (s : string) : string :=
  match s with
  | String c rest => if isspace c then lstrip rest else s
  | EmptyString => EmptyString
  end.

(** Leading decimal digits of [s], accumulated on [acc], and what follows. *)
Fixpoint digits (acc : Z) (s : string) : Z * string :=
  match s with
  | String c rest =>
      if isdigit c then digits (10 * acc + Z.of_N (code c - 48)) rest
      else (acc, s)
  | EmptyString => (acc, EmptyString)
  end.

(** [int(s)] in base ten: blanks, an optional sign, at least one digit,
    blanks.  [None] stands for the [ValueError] of an invalid literal. *)
Definition int (s : string) : option Z :=
  let s1 := lstrip s in
  let '(negative, s2) :=
    match s1 with
    | String "-" rest => (true, rest)
    | String "+" rest => (false, rest)
    | _ => (false, s1)
    end in
  match s2 with
  | String c _ =>
      if isdigit c then
        let '(v, rest) := digits 0 s2 in
        match lstrip rest with
        | EmptyString => Some (if negative then - v else v)
        | String _ _ => None
        end
      else None
  | EmptyString => None
  end.

(** [str(n)] for a length. *)
Definition str (n : nat) : string := NilZero.string_of_uint (Nat.to_uint n).

End PyStr.

(** ** Exceptions and the store *)

(** The exceptions the code can end in.  [KeyError k] is what [d[k]] raises
    on a dictionary without [k]; [ValueError s] is what [int(s)] raises on
    an invalid literal.  [LibraryError] covers what the URL library may
    raise, and [Dangling] is a reference to no object of the store, which no
    Python program can hold. *)
Inductive exn :=
  | KeyError (key : string)
  | ValueError (literal : string)
  | AttributeError (attribute : string)
  | LibraryError (what : string)
  | Dangling.

Inductive result (A : Type) :=
  | Ok (a : A)
  | Raise (e : exn).
Arguments Ok {A} a.
Arguments Raise {A} e.

Abbreviation loc := positive (only parsing).
Abbreviation Headers := (gmap string string) (only parsing).
(** The store: the header dictionaries, by reference. *)
Abbreviation store := (gmap positive (gmap string string)) (only parsing).

(** Computations that read and write the store and may raise. *)
Definition M (A : Type) : Type := store -> result A * store.

Definition ret {A} (a : A) : M A := fun st => (Ok a, st).
Definition raise {A} (e : exn) : M A := fun st => (Raise e, st).
Definition bind {A B} (m : M A) (k : A -> M B) : M B :=
  fun st => match m st with
            | (Ok a, st') => k a st'
            | (Raise e, st') => (Raise e, st')
            end.
Definition lift {A} (r : result A) : M A := fun st => (r, st).

Declare Scope py_scope.
Delimit Scope py_scope with py.
Notation "x <- m ;; k" := (bind m (fun x => k))
  (at level 100, m at next level, right associativity) : py_scope.
Local Open Scope py_scope.

(** A new dictionary object holding [h]. *)
Definition alloc (h : Headers) : M loc :=
  fun st => let l := fresh (dom st) in (Ok l, <[l := h]> st).
(** The dictionary behind a reference. *)
Definition deref (l : loc) : M Headers :=
  fun st => match st !! l with
            | Some h => (Ok h, st)
            | None => (Raise Dangling, st)
            end.
(** [d.update({k: v})] on the dictionary behind [l]. *)
Definition update (l : loc) (k v : string) : M unit :=
  fun st => match st !! l with
            | Some h => (Ok tt, <[l := <[k := v]> h]> st)
            | None => (Raise Dangling, st)
            end.
(** [copy.deepcopy(d)]: the values are strings, so the copy is a new
    dictionary with the same entries. *)
Definition deepcopy (l : loc) : M loc :=
  h <- deref l ;; alloc h.

(** [if x is None: x = fallback]: an argument that was given is kept. *)
Definition or_default {A} (given : option A) (fallback : M A) : M A :=
  match given with
  | Some a => ret a
  | None => fallback
  end.

(** [d[k]] on a dictionary whose entry may be missing. *)
Definition getitem {A} (key : string) (entry : option A) : M A :=
  match entry with
  | Some a => ret a
  | None => raise (KeyError key)
  end.

(** [int(s)], raising on an invalid literal. *)
Definition int (s : string) : result Z :=
  match PyStr.int s with
  | Some n => Ok n
  | None => Raise (ValueError s)
  end.

(** ** The raw record read from the log

    [data] is a dictionary with the keys [host], [ip_address], [time],
    [request] and [response]; the last two are dictionaries themselves.  A
    key that is missing is [None]; the values present are strings. *)

Record RawRequest := {
  rq_method : option string;
  rq_path : option string;
  rq_version : option string;
  rq_headers : option string;
  rq_body : option string;
}.

Record RawResponse := {
  rs_version : option string;
  rs_status : option string;
  rs_reason : option string;
  rs_headers : option string;
  rs_body : option string;
}.

Record RawData := {
  raw_host : option string;
  raw_ip_address : option string;
  raw_time : option string;
  raw_request : option RawRequest;
  raw_response : option RawResponse;
}.

(** ** The [Burp] object *)

(** What the constructor imports from [urlparse]: the type of parsed URLs
    and the three calls the code makes.  [urljoin] and [urlparse] may raise
    (with no host and no path there is nothing to parse). *)
Class UrlLib := {
  Url : Type;
  urljoin : option string -> option string -> result (option string);
  urlparse : option string -> result Url;
  geturl : Url -> string;
}.

(** [self.request] and [self.response] once [update] has filled them: the
    five keys are set together. *)
Record Request := {
  req_method : option string;
  req_path : option string;
  req_version : option string;
  req_headers : loc;
  req_body : string;
}.

Record Response := {
  res_version : option string;
  res_status : Z;
  res_reason : option string;
  res_headers : loc;
  res_body : string;
}.

(** The attributes of a [Burp] object.  [request] and [response] are [None]
    while they are the empty dictionary of [__init__]. *)
#[local] Unset Elimination Schemes.
Inductive Burp `{UrlLib} := mkBurp {
  index : Z;
  host : option string;
  ip_address : option string;
  time : option string;
  request : option Request;
  response : option Response;
  url : option Url;
  parameters : gmap string string;
  replayed : list Burp;
}.
#[local] Set Elimination Schemes.
Arguments mkBurp {_} _ _ _ _ _ _ _ _ _.

(** What the constructor imports from [utils].  The two parsers are not
    among the sources at hand; they are pure functions of their argument
    (the parameter parser reads the object it is given, headers included). *)
Class Utils `{UrlLib} := {
  parse_headers : option string -> gmap string string;
  parse_parameters : store -> Burp -> gmap string string;
}.

Section Model.
Context `{Utils}.

(** [__init__] before [__process]: every attribute at its default. *)
Definition empty_burp (idx : Z) : Burp :=
  mkBurp idx None None None None None None ∅ [].

Definition set_origin (h i t : option string) (self : Burp) : Burp :=
  mkBurp (index self) h i t (request self) (response self) (url self)
         (parameters self) (replayed self).
Definition set_request (rq : Request) (self : Burp) : Burp :=
  mkBurp (index self) (host self) (ip_address self) (time self) (Some rq)
         (response self) (url self) (parameters self) (replayed self).
Definition set_response (rsp : Response) (self : Burp) : Burp :=
  mkBurp (index self) (host self) (ip_address self) (time self) (request self)
         (Some rsp) (url self) (parameters self) (replayed self).
Definition set_url (u : Url) (self : Burp) : Burp :=
  mkBurp (index self) (host self) (ip_address self) (time self) (request self)
         (response self) (Some u) (parameters self) (replayed self).
Definition set_parameters (ps : gmap string string) (self : Burp) : Burp :=
  mkBurp (index self) (host self) (ip_address self) (time self) (request self)
         (response self) (url self) ps (replayed self).

(** [self.request['body'] = b] and [self.response['body'] = b] *)
Definition set_request_body (b : string) (rq : Request) : Request :=
  {| req_method := req_method rq; req_path := req_path rq;
     req_version := req_version rq; req_headers := req_headers rq;
     req_body := b |}.
Definition set_response_body (b : string) (rsp : Response) : Response :=
  {| res_version := res_version rsp; res_status := res_status rsp;
     res_reason := res_reason rsp; res_headers := res_headers rsp;
     res_body := b |}.

(** *** Accessors *)

Definition get_request_body (self : Burp) : M string :=
  rq <- getitem "body" (request self) ;; ret (req_body rq).

Definition get_request_method (self : Burp) : M (option string) :=
  rq <- getitem "method" (request self) ;; ret (req_method rq).

Definition get_request_version (self : Burp) : M (option string) :=
  rq <- getitem "version" (request self) ;; ret (req_version rq).

Definition get_request_headers (self : Burp) : M loc :=
  rq <- getitem "headers" (request self) ;; ret (req_headers rq).

(** [self.request['headers'].get(name.title(), '')] *)
Definition get_request_header (self : Burp) (name : string) : M string :=
  l <- get_request_headers self ;;
  h <- deref l ;;
  ret (default EmptyString (h !! PyStr.title name)).

Definition get_request_path (self : Burp) : M (option string) :=
  rq <- getitem "path" (request self) ;; ret (req_path rq).

Definition get_response_version (self : Burp) : M (option string) :=
  rsp <- getitem "version" (response self) ;; ret (res_version rsp).

Definition get_response_status (self : Burp) : M Z :=
  rsp <- getitem "status" (response self) ;; ret (res_status rsp).

Definition get_response_reason (self : Burp) : M (option string) :=
  rsp <- getitem "reason" (response self) ;; ret (res_reason rsp).

Definition get_response_headers (self : Burp) : M loc :=
  rsp <- getitem "headers" (response self) ;; ret (res_headers rsp).

(** [self.response['headers'].get(name.title(), None)] *)
Definition get_response_header (self : Burp) (name : string)
  : M (option string) :=
  l <- get_response_headers self ;;
  h <- deref l ;;
  ret (h !! PyStr.title name).

Definition get_response_body (self : Burp) : M string :=
  rsp <- getitem "body" (response self) ;; ret (res_body rsp).

(** [__len__] *)
Definition burp_len (self : Burp) : M Z :=
  b <- get_response_body self ;; ret (PyStr.len b).

(** *** [__process] *)

(** [int(data['response'].get('status', 0))] *)
Definition coerce_status (status : option string) : result Z :=
  match status with
  | Some s => int s
  | None => Ok 0
  end.

(** [self.request.get('path')] *)
Definition request_get_path (self : Burp) : option string :=
  match request self with
  | Some rq => req_path rq
  | None => None
  end.

(** Lines 65 to 86: the attributes are filled from [data]. *)
Definition populate (data : RawData) (self : Burp) : M Burp :=
  let self := set_origin (raw_host data) (raw_ip_address data) (raw_time data)
                         self in
  rq <- getitem "request" (raw_request data) ;;
  hq <- alloc (parse_headers (rq_headers rq)) ;;
  let self :=
    set_request {| req_method := rq_method rq; req_path := rq_path rq;
                   req_version := rq_version rq; req_headers := hq;
                   req_body := default EmptyString (rq_body rq) |} self in
  rs <- getitem "response" (raw_response data) ;;
  status <- lift (coerce_status (rs_status rs)) ;;
  hs <- alloc (parse_headers (rs_headers rs)) ;;
  let self :=
    set_response {| res_version := rs_version rs; res_status := status;
                    res_reason := rs_reason rs; res_headers := hs;
                    res_body := default EmptyString (rs_body rs) |} self in
  joined <- lift (urljoin (host self) (request_get_path self)) ;;
  u <- lift (urlparse joined) ;;
  let self := set_url u self in
  ps <- (fun st => (Ok (parse_parameters st self), st)) ;;
  ret (set_parameters ps self).

(** Lines 91 to 95.  The header is read twice in the source, for its truth
    value and for [int]; both reads see the same dictionary. *)
Definition reconcile_response (self : Burp) : M Burp :=
  declared <- get_response_header self "Content-Length" ;;
  match declared with
  | Some v =>
      if PyStr.nonempty v then
        content_length <- lift (int v) ;;
        n <- burp_len self ;;
        if bool_decide (n <> content_length) then
          rsp <- getitem "body" (response self) ;;
          ret (set_response
                 (set_response_body
                    (PyStr.slice_to (res_body rsp) content_length) rsp) self)
        else ret self
      else ret self
  | None => ret self
  end.

(** Lines 97 to 102. *)
Definition reconcile_request (self : Burp) : M Burp :=
  declared <- get_request_header self "Content-Length" ;;
  if PyStr.nonempty declared then
    content_length <- lift (int declared) ;;
    b <- get_request_body self ;;
    if bool_decide (PyStr.len b <> content_length) then
      content_type <- get_request_header self "Content-Type" ;;
      if negb (PyStr.contains "amf" content_type) then
        rq <- getitem "body" (request self) ;;
        ret (set_request
               (set_request_body (PyStr.slice_to (req_body rq) content_length)
                                 rq) self)
      else ret self
    else ret self
  else ret self.

Definition process (data : RawData) (self : Burp) : M Burp :=
  self <- populate data self ;;
  self <- reconcile_response self ;;
  reconcile_request self.

(** [Burp(data, index)]: [data] is processed when it is a dictionary. *)
Definition construct (data : option RawData) (idx : Z) : M Burp :=
  match data with
  | Some d => process d (empty_burp idx)
  | None => ret (empty_burp idx)
  end.

(** *** [Scanner.replay] *)

(** The four locals of [replay] where the function ends: what would be
    sent. *)
Record ReplayRequest := {
  rp_url : string;
  rp_method : option string;
  rp_body : string;
  rp_headers : loc;
}.

(** [request.url.geturl()] *)
Definition source_url (source : Burp) : M string :=
  match url source with
  | Some u => ret (geturl u)
  | None => raise (AttributeError "geturl")
  end.

(** [replay(request, url, method, body, headers)]; an argument left out is
    [None].  The record to replay, [request] in the source, is [source]
    here. *)
Definition replay (source : Burp) (url method body : option string)
    (headers : option loc) : M ReplayRequest :=
  url <- or_default url (source_url source) ;;
  method <- match method with
            | Some m => ret (Some m)
            | None => get_request_method source
            end ;;
  body <- or_default body (get_request_body source) ;;
  headers <- or_default headers
               (l <- get_request_headers source ;; deepcopy l) ;;
  _ <- (if bool_decide (method = Some "POST") && PyStr.nonempty body
        then update headers "Content-Length"
                    (PyStr.str (String.length body))
        else ret tt) ;;
  ret {| rp_url := url; rp_method := method; rp_body := body;
         rp_headers := headers |}.

End Model.

(** ** A concrete environment

    The model runs once the two imported modules are given.  This instance
    is used to evaluate the constructor and [replay] on sample records. *)

Module Sample.

Definition LF : ascii := ascii_of_N 10.
Definition CR : ascii := ascii_of_N 13.
Definition CRLF : string := String CR (String LF EmptyString).

(** [s] cut at the first [c]: what is before it and what is after it. *)
Fixpoint partition (c : ascii) (s : string) : option (string * string) :=
  match s with
  | EmptyString => None
  | String a rest =>
      if Ascii.eqb a c then Some (EmptyString, rest)
      else match partition c rest with
           | Some (before, after) => Some (String a before, after)
           | None => None
           end
  end.

Fixpoint rstrip (s : string) : string :=
  match s with
  | EmptyString => EmptyString
  | String c rest =>
      match rstrip rest with
      | EmptyString =>
          if PyStr.isspace c then EmptyString else String c EmptyString
      | kept => String c kept
      end
  end.

Definition strip (s : string) : string := rstrip (PyStr.lstrip s).

(** The lines of [s], cut at every line feed. *)
Fixpoint lines (s : string) : list string :=
  match s with
  | EmptyString => [EmptyString]
  | String c rest =>
      if Ascii.eqb c LF then EmptyString :: lines rest
      else match lines rest with
           | l :: ls => String c l :: ls
           | [] => [String c EmptyString]
           end
  end.

(** Modelled from the spec: [parse_headers] of [utils], the header parser
    (section 6): its input is the raw header blob, a sequence of
    [Name: value] lines, and its output maps every header name, in title
    case, to its value.  A missing blob has no headers. *)
Definition parse_headers_model (raw : option string) : gmap string string :=
  match raw with
  | None => ∅
  | Some blob =>
      fold_left
        (fun hs line =>
           match partition ":" line with
           | Some (name, value) => <[PyStr.title (strip name) := strip value]> hs
           | None => hs
           end)
        (lines blob) ∅
  end.

(** The first two tests of [urljoin], then plain concatenation of the base
    and the path; [urlparse] keeps the string and needs one. *)
#[global] Instance urllib : UrlLib := {|
  Url := string;
  urljoin base path :=
    match base, path with
    | (None | Some EmptyString), _ => Ok path
    | _, (None | Some EmptyString) => Ok base
    | Some b, Some p => Ok (Some (b ++ p))
    end;
  urlparse joined :=
    match joined with
    | Some u => Ok u
    | None => Raise (AttributeError "find")
    end;
  geturl u := u;
|}.

#[global] Instance utils : Utils := {|
  parse_headers := parse_headers_model;
  parse_parameters _ _ := ∅;
|}.

(** The scenario of the specification: ten bytes of body, five declared. *)
Definition get_a : RawRequest :=
  {| rq_method := Some "GET"; rq_path := Some "/a"; rq_version := None;
     rq_headers := Some ("Host: x" ++ CRLF); rq_body := Some EmptyString |}.

Definition respond (status headers body : string) : RawResponse :=
  {| rs_version := None; rs_status := Some status; rs_reason := None;
     rs_headers := Some headers; rs_body := Some body |}.

Definition record (rq : RawRequest) (rs : RawResponse) : RawData :=
  {| raw_host := Some "http://x"; raw_ip_address := None; raw_time := None;
     raw_request := Some rq; raw_response := Some rs |}.

Definition hello : RawData :=
  record get_a (respond "200" ("Content-Length: 5" ++ CRLF) "helloWORLD").

(** A declared length below zero. *)
Definition negative : RawData :=
  record get_a (respond "200" ("Content-Length: -3" ++ CRLF) "helloWORLD").

(** A declared length that is no number, and an empty one. *)
Definition garbled : RawData :=
  record get_a (respond "200" ("Content-Length: abc" ++ CRLF) "helloWORLD").
Definition blank : RawData :=
  record get_a (respond "200" ("Content-Length:" ++ CRLF) "helloWORLD").

(** A status that is no number. *)
Definition bad_status : RawData :=
  record get_a (respond "abc" EmptyString "helloWORLD").

Definition post (headers body : string) : RawRequest :=
  {| rq_method := Some "POST"; rq_path := Some "/login"; rq_version := None;
     rq_headers := Some headers; rq_body := Some body |}.

(** An AMF request whose body is longer than declared. *)
Definition amf : RawData :=
  record (post ("Content-Type: application/x-amf" ++ CRLF ++
                "Content-Length: 3" ++ CRLF) "abcdef")
         (respond "200" EmptyString EmptyString).

(** The same request with a declared length that is no number. *)
Definition garbled_request : RawData :=
  record (post ("Content-Length: abc" ++ CRLF) "abcdef")
         (respond "200" EmptyString EmptyString).

(** Both sides declare more than they carry. *)
Definition overstated : RawData :=
  record (post ("Content-Length: 10" ++ CRLF) "abc")
         (respond "200" ("Content-Length: 20" ++ CRLF) "helloWORLD").

(** A plain form post whose body is longer than declared. *)
Definition long_post : RawData :=
  record (post ("Content-Length: 3" ++ CRLF) "abcdef")
         (respond "200" EmptyString EmptyString).

Definition no_request : RawData :=
  {| raw_host := Some "http://x"; raw_ip_address := None; raw_time := None;
     raw_request := None;
     raw_response := Some (respond "200" EmptyString EmptyString) |}.

Definition no_response : RawData :=
  {| raw_host := Some "http://x"; raw_ip_address := None; raw_time := None;
     raw_request := Some get_a; raw_response := None |}.

(** A constructed POST record and the store it lives in: the request
    headers are object 1, the response headers object 2. *)
Definition login_headers : gmap string string :=
  {[ "Host" := "x"; "Content-Length" := "10" ]}.

Definition login : Burp :=
  mkBurp 0 (Some "http://x") None None
    (Some {| req_method := Some "POST"; req_path := Some "/login";
             req_version := None; req_headers := 1%positive;
             req_body := "user=a" |})
    (Some {| res_version := None; res_status := 200; res_reason := None;
             res_headers := 2%positive; res_body := EmptyString |})
    (Some "http://x/login") ∅ [].

Definition login_store : gmap positive (gmap string string) :=
  {[ 1%positive := login_headers; 2%positive := ∅ ]}.

(** A dictionary of the caller, object 3, next to them. *)
Definition caller_store : gmap positive (gmap string string) :=
  <[ 3%positive := {[ "Accept" := "*/*" ]} ]> login_store.

End Sample.


(** ** Display and comparison of names *)

(** [str.lower()] *)
Fixpoint lower (s : string) : string :=
  match s with
  | EmptyString => EmptyString
  | String c rest => String (PyStr.tolower c) (lower rest)
  end.

(** ["%d" % n] for an integer [n] *)
Definition format_d (n : Z) : string := NilZero.string_of_int (Z.to_int n).

(** [__repr__] *)
Definition burp_repr `{UrlLib} (self : Burp) : string :=
  "<Burp " ++ format_d (index self) ++ ">".

(** ** Facts about strings *)

Lemma take_length n s :
  String.length (PyStr.take n s) = Nat.min n (String.length s).
Proof.
  revert s; induction n as [|n IH]; intros [|c s]; simpl; auto.
Qed.

Lemma take_all n s : (String.length s <= n)%nat -> PyStr.take n s = s.
Proof.
  revert s; induction n as [|n IH]; intros [|c s]; simpl; intros Hle;
    try reflexivity; try lia.
  f_equal; apply IH; lia.
Qed.

Lemma append_cons c s t : String c s ++ t = String c (s ++ t).
Proof. reflexivity. Qed.

Lemma take_is_prefix n s : exists rest, s = PyStr.take n s ++ rest.
Proof.
  revert s; induction n as [|n IH]; intros s.
  - exists s. destruct s; reflexivity.
  - destruct s as [|c s]; [exists EmptyString; reflexivity|].
    destruct (IH s) as [rest Hrest]. exists rest. simpl.
    rewrite append_cons. congruence.
Qed.

Lemma slice_to_all s n : PyStr.len s <= n -> PyStr.slice_to s n = s.
Proof.
  unfold PyStr.slice_to, PyStr.len. intros Hle.
  destruct (Z.ltb_spec n 0); [lia|]. apply take_all. lia.
Qed.

Lemma slice_to_shorter s n :
  0 <= n < PyStr.len s ->
  PyStr.len (PyStr.slice_to s n) = n /\
  exists rest, s = PyStr.slice_to s n ++ rest.
Proof.
  unfold PyStr.slice_to, PyStr.len. intros [Hn Hlt].
  destruct (Z.ltb_spec n 0); [lia|]. split.
  - rewrite take_length. lia.
  - apply take_is_prefix.
Qed.

Lemma prefix_app needle hay :
  String.prefix needle hay = true <-> exists rest, hay = needle ++ rest.
Proof.
  revert hay; induction needle as [|c needle IH]; intros hay; simpl.
  - split; [exists hay; reflexivity | destruct hay; reflexivity].
  - destruct hay as [|d hay].
    + split; [discriminate|].
      intros [rest Hrest]. rewrite append_cons in Hrest. discriminate.
    + simpl. destruct (Ascii.ascii_dec c d) as [->|Hne].
      * rewrite IH. split; intros [rest Hrest]; exists rest;
          rewrite append_cons in *; congruence.
      * split; [discriminate|].
        intros [rest Hrest]. rewrite append_cons in Hrest. congruence.
Qed.

Lemma contains_nil needle :
  PyStr.contains needle EmptyString = String.prefix needle EmptyString.
Proof. simpl. apply orb_false_r. Qed.

Lemma contains_cons needle c hay :
  PyStr.contains needle (String c hay) =
  String.prefix needle (String c hay) || PyStr.contains needle hay.
Proof. reflexivity. Qed.

Lemma contains_app needle hay :
  PyStr.contains needle hay = true <->
  exists before after, hay = before ++ needle ++ after.
Proof.
  induction hay as [|c hay IH].
  - rewrite contains_nil, prefix_app. split.
    + intros [rest Hrest]. exists EmptyString, rest. exact Hrest.
    + intros [[|b before] [after Heq]]; [eauto|].
      rewrite append_cons in Heq. discriminate.
  - rewrite contains_cons, orb_true_iff, prefix_app, IH. split.
    + intros [[rest Hrest] | (before & after & Heq)].
      * exists EmptyString, rest. exact Hrest.
      * exists (String c before), after. rewrite append_cons. congruence.
    + intros [[|b before] [after Heq]].
      * left. eauto.
      * right. exists before, after. rewrite append_cons in Heq. congruence.
Qed.

Lemma nonempty_true s : PyStr.nonempty s = true <-> s <> EmptyString.
Proof. destruct s; simpl; split; congruence. Qed.


(** ** Facts about the constructor *)

Lemma title_content_length_id :
  PyStr.title "Content-Length" = "Content-Length".
Proof. reflexivity. Qed.

Lemma title_content_type_id : PyStr.title "Content-Type" = "Content-Type".
Proof. reflexivity. Qed.

Lemma int_ok v n : PyStr.int v = Some n -> int v = Ok n.
Proof. unfold int. intros ->. reflexivity. Qed.

Lemma int_raise v : PyStr.int v = None -> int v = Raise (ValueError v).
Proof. unfold int. intros ->. reflexivity. Qed.

Section Facts.
Context `{Utils}.

(** What [populate] leaves when it returns: both sections were there, the
    status was coerced, and the two header dictionaries are new objects. *)
Lemma populate_inv data self st b st' :
  populate data self st = (Ok b, st') ->
  exists rq rs status hq hs,
    raw_request data = Some rq /\ raw_response data = Some rs /\
    coerce_status (rs_status rs) = Ok status /\
    request b =
      Some {| req_method := rq_method rq; req_path := rq_path rq;
              req_version := rq_version rq; req_headers := hq;
              req_body := default EmptyString (rq_body rq) |} /\
    response b =
      Some {| res_version := rs_version rs; res_status := status;
              res_reason := rs_reason rs; res_headers := hs;
              res_body := default EmptyString (rs_body rs) |} /\
    st' !! hq = Some (parse_headers (rq_headers rq)) /\
    st' !! hs = Some (parse_headers (rs_headers rs)).
Proof.
  unfold populate, bind, getitem, alloc, lift, ret, raise. intros Hp.
  destruct (raw_request data) as [rq|] eqn:Hrq; [|discriminate].
  destruct (raw_response data) as [rs|] eqn:Hrs; [|discriminate].
  destruct (coerce_status (rs_status rs)) as [status|] eqn:Hstatus;
    [|discriminate].
  destruct (urljoin _ _) as [joined|]; [|discriminate].
  destruct (urlparse joined) as [u|]; [|discriminate].
  injection Hp as <- <-.
  set (hq := fresh (dom st)).
  set (st1 := <[hq := parse_headers (rq_headers rq)]> st).
  set (hs := fresh (dom st1)).
  assert (hs <> hq) as Hne.
  { intros Heq. apply (is_fresh (dom st1)). fold hs. rewrite Heq.
    subst st1. rewrite dom_insert_L. set_solver. }
  exists rq, rs, status, hq, hs. repeat split; try reflexivity; try assumption.
  - rewrite lookup_insert_ne by exact Hne. apply lookup_insert_eq.
  - apply lookup_insert_eq.
Qed.

(** The response side, in one equation: an absent or empty header leaves
    the object alone, an invalid one raises, a valid one slices the body
    (to itself when the lengths agree). *)
Lemma reconcile_response_eq self st rsp h :
  response self = Some rsp ->
  st !! res_headers rsp = Some h ->
  reconcile_response self st =
  (match h !! "Content-Length" with
   | Some v =>
       if PyStr.nonempty v then
         match PyStr.int v with
         | Some n =>
             Ok (set_response
                   (set_response_body (PyStr.slice_to (res_body rsp) n) rsp)
                   self)
         | None => Raise (ValueError v)
         end
       else Ok self
   | None => Ok self
   end, st).
Proof.
  intros Hrsp Hh.
  unfold reconcile_response, get_response_header, get_response_headers,
    burp_len, get_response_body, bind, getitem, deref, lift, ret, raise.
  rewrite Hrsp. simpl. rewrite Hh, title_content_length_id.
  destruct (h !! "Content-Length") as [v|]; [|reflexivity].
  destruct (PyStr.nonempty v); [|reflexivity].
  unfold int. destruct (PyStr.int v) as [n|]; [|reflexivity].
  case_bool_decide as Hlen; [reflexivity|].
  rewrite slice_to_all by lia.
  destruct self, rsp; simpl in *. subst.
  unfold set_response, set_response_body. simpl. reflexivity.
Qed.

(** The request side likewise; a body whose content type mentions [amf] is
    never sliced. *)
Lemma reconcile_request_eq self st rq h :
  request self = Some rq ->
  st !! req_headers rq = Some h ->
  reconcile_request self st =
  (let v := default EmptyString (h !! "Content-Length") in
   if PyStr.nonempty v then
     match PyStr.int v with
     | Some n =>
         Ok (if PyStr.contains "amf"
                  (default EmptyString (h !! "Content-Type"))
             then self
             else set_request
                    (set_request_body (PyStr.slice_to (req_body rq) n) rq)
                    self)
     | None => Raise (ValueError v)
     end
   else Ok self, st).
Proof.
  intros Hrq Hh.
  unfold reconcile_request, get_request_header, get_request_headers,
    get_request_body, bind, getitem, deref, lift, ret, raise.
  rewrite Hrq. simpl. rewrite Hh, title_content_length_id, title_content_type_id.
  destruct (PyStr.nonempty _); [|reflexivity].
  unfold int. destruct (PyStr.int _) as [n|]; [|reflexivity].
  case_bool_decide as Hlen.
  - rewrite Hh. destruct (PyStr.contains _ _); reflexivity.
  - rewrite slice_to_all by lia.
    destruct (PyStr.contains _ _); [reflexivity|].
    destruct self, rq; simpl in *. subst.
    unfold set_request, set_request_body. simpl. reflexivity.
Qed.

(** A constructed object, read back against the raw record it came from.
    The bodies are the parsed ones, sliced where a declared length is valid
    (and, on the request side, the content type does not mention [amf]); no
    declared length that is kept is invalid. *)
Lemma construct_inv data idx st b st' :
  construct (Some data) idx st = (Ok b, st') ->
  exists rq rs status hq hs,
    raw_request data = Some rq /\ raw_response data = Some rs /\
    coerce_status (rs_status rs) = Ok status /\
    st' !! hq = Some (parse_headers (rq_headers rq)) /\
    st' !! hs = Some (parse_headers (rs_headers rs)) /\
    request b =
      Some {| req_method := rq_method rq; req_path := rq_path rq;
              req_version := rq_version rq; req_headers := hq;
              req_body :=
                match parse_headers (rq_headers rq) !! "Content-Length"
                        ≫= PyStr.int with
                | Some n =>
                    if PyStr.contains "amf"
                         (default EmptyString
                            (parse_headers (rq_headers rq) !! "Content-Type"))
                    then default EmptyString (rq_body rq)
                    else PyStr.slice_to (default EmptyString (rq_body rq)) n
                | None => default EmptyString (rq_body rq)
                end |} /\
    response b =
      Some {| res_version := rs_version rs; res_status := status;
              res_reason := rs_reason rs; res_headers := hs;
              res_body :=
                match parse_headers (rs_headers rs) !! "Content-Length"
                        ≫= PyStr.int with
                | Some n => PyStr.slice_to (default EmptyString (rs_body rs)) n
                | None => default EmptyString (rs_body rs)
                end |}.
Proof.
  unfold construct, process, bind. intros Hc.
  destruct (populate data (empty_burp idx) st) as [[b1|e1] st1] eqn:Hp;
    [|discriminate].
  apply populate_inv in Hp
    as (rq & rs & status & hq & hs & Hrq & Hrs & Hst & Hreq & Hrsp & Hq & Hs).
  rewrite (reconcile_response_eq _ _ _ _ Hrsp Hs) in Hc.
  exists rq, rs, status, hq, hs.
  split; [exact Hrq|]. split; [exact Hrs|]. split; [exact Hst|].
  assert (forall b2 : Burp,
            request b2 = request b1 ->
            reconcile_request b2 st1 = (Ok b, st') ->
            st' = st1 /\
            response b = response b2 /\
            request b =
              Some {| req_method := rq_method rq; req_path := rq_path rq;
                      req_version := rq_version rq; req_headers := hq;
                      req_body :=
                        match parse_headers (rq_headers rq) !! "Content-Length"
                                ≫= PyStr.int with
                        | Some n =>
                            if PyStr.contains "amf"
                                 (default EmptyString
                                    (parse_headers (rq_headers rq)
                                       !! "Content-Type"))
                            then default EmptyString (rq_body rq)
                            else PyStr.slice_to
                                   (default EmptyString (rq_body rq)) n
                        | None => default EmptyString (rq_body rq)
                        end |}) as Hrequest.
  { intros b2 Hsame Hr. rewrite Hreq in Hsame.
    rewrite (reconcile_request_eq _ _ _ _ Hsame Hq) in Hr. simpl in Hr.
    destruct (parse_headers (rq_headers rq) !! "Content-Length") as [[|c v]|];
      simpl in Hr |- *.
    - injection Hr as <- <-. auto.
    - destruct (PyStr.int (String c v)) as [n|]; [|discriminate].
      destruct (PyStr.contains _ _); injection Hr as <- <-; auto.
    - injection Hr as <- <-. auto. }
  destruct (parse_headers (rs_headers rs) !! "Content-Length") as [[|c v]|];
    simpl in Hc |- *.
  - apply Hrequest in Hc as (-> & -> & ->); auto.
  - destruct (PyStr.int (String c v)) as [n|]; [|discriminate].
    apply Hrequest in Hc as (-> & -> & ->); [|reflexivity].
    repeat split; try assumption; reflexivity.
  - apply Hrequest in Hc as (-> & -> & ->); auto.
Qed.

End Facts.

(** ** Evaluation on samples *)

(** A run whose result is known, with the store it leaves. *)
Lemma run_ok {A} (m : M A) st a :
  fst (m st) = Ok a -> m st = (Ok a, snd (m st)).
Proof. destruct (m st) as [r st']. simpl. intros ->. reflexivity. Qed.

(** Closed equations are settled by evaluation of both sides. *)
Ltac evaluate :=
  lazymatch goal with
  | |- _ = ?rhs => vm_cast_no_check (@eq_refl _ rhs)
  end.

Example title_content_length :
  PyStr.title "content-LENGTH" = "Content-Length".
Proof. reflexivity. Qed.

Example int_samples :
  PyStr.int " 42 " = Some 42 /\ PyStr.int "-3" = Some (-3) /\
  PyStr.int "abc" = None /\ PyStr.int EmptyString = None /\
  PyStr.int "12a" = None /\ PyStr.int "+" = None /\ PyStr.int "007" = Some 7.
Proof. repeat split; reflexivity. Qed.

Example slice_samples :
  PyStr.slice_to "helloWORLD" 5 = "hello" /\
  PyStr.slice_to "helloWORLD" (-3) = "helloWO" /\
  PyStr.slice_to "abc" 10 = "abc" /\
  PyStr.slice_to "abc" (-7) = EmptyString.
Proof. repeat split; reflexivity. Qed.

Example str_samples : PyStr.str 42 = "42" /\ PyStr.str 0 = "0".
Proof. split; reflexivity. Qed.

(** The scenario of the specification: the body is cut to [hello] and the
    status is 200. *)
Example hello_constructed :
  exists b rsp,
    fst (construct (Some Sample.hello) 0 ∅) = Ok b /\
    response b = Some rsp /\
    res_body rsp = "hello" /\ res_status rsp = 200.
Proof.
  eexists _, _. split; [vm_compute; reflexivity|].
  split; [reflexivity|]. split; reflexivity.
Qed.

Example login_constructed :
  construct
    (Some (Sample.record
             (Sample.post ("Host: x" ++ Sample.CRLF ++
                           "Content-Length: 10" ++ Sample.CRLF) "user=a")
             (Sample.respond "200" EmptyString EmptyString))) 0 ∅
  = (Ok Sample.login, Sample.login_store).
Proof. evaluate. Qed.

(** ** Reconciliation of the bodies *)

(** C1, as amended: when the response declares a Content-Length that [int]
    reads as an integer [N] that is not negative, and the parsed response
    body is longer than [N], the body of the constructed object has length
    exactly [N] and is the first [N] bytes of the parsed body. *)
Theorem response_body_truncated `{Utils} data idx st b st' rs v N :
  construct (Some data) idx st = (Ok b, st') ->
  raw_response data = Some rs ->
  parse_headers (rs_headers rs) !! "Content-Length" = Some v ->
  PyStr.int v = Some N ->
  0 <= N ->
  N < PyStr.len (default EmptyString (rs_body rs)) ->
  exists rsp,
    response b = Some rsp /\
    PyStr.len (res_body rsp) = N /\
    res_body rsp =
      PyStr.take (Z.to_nat N) (default EmptyString (rs_body rs)) /\
    exists rest, default EmptyString (rs_body rs) = res_body rsp ++ rest.
Proof.
  intros Hc Hrs Hv HN Hpos Hlong.
  apply construct_inv in Hc
    as (rq & rs' & status & hq & hs & _ & Hrs' & _ & _ & _ & _ & Hrsp).
  rewrite Hrs in Hrs'. injection Hrs' as <-.
  rewrite Hv in Hrsp. simpl in Hrsp. rewrite HN in Hrsp.
  eexists. split; [exact Hrsp|]. simpl.
  destruct (slice_to_shorter (default EmptyString (rs_body rs)) N)
    as [Hlen Hpre]; [lia|].
  split; [exact Hlen|]. split; [|exact Hpre].
  unfold PyStr.slice_to. destruct (Z.ltb_spec N 0); [lia|reflexivity].
Qed.

Lemma response_body_truncated_witness :
  exists b st rsp,
    construct (Some Sample.hello) 0 ∅ = (Ok b, st) /\
    response b = Some rsp /\
    PyStr.len (res_body rsp) = 5 /\
    res_body rsp = PyStr.take 5 "helloWORLD" /\
    exists rest, "helloWORLD" = res_body rsp ++ rest.
Proof.
  assert (fst (construct (Some Sample.hello) 0 ∅) = Ok _) as Hc
    by (vm_compute; reflexivity).
  apply run_ok in Hc.
  destruct (response_body_truncated Sample.hello 0 ∅ _ _
              (Sample.respond "200" ("Content-Length: 5" ++ Sample.CRLF)
                 "helloWORLD") "5" 5 Hc)
    as (rsp & Hrsp & Hlen & Htake & Hpre);
    [reflexivity | evaluate | reflexivity | lia | reflexivity |].
  eexists _, _, rsp. split; [exact Hc|]. auto.
Defined.

(** C1, as stated, fails on a negative declared length: [int] reads [-3],
    the ten bytes of body are longer than that, and the slice [body[:-3]]
    keeps seven bytes, not [-3]. *)
Lemma response_body_negative_length :
  exists b rsp,
    fst (construct (Some Sample.negative) 0 ∅) = Ok b /\
    parse_headers (Some ("Content-Length: -3" ++ Sample.CRLF))
      !! "Content-Length" = Some "-3" /\
    PyStr.int "-3" = Some (-3) /\
    -3 < PyStr.len "helloWORLD" /\
    response b = Some rsp /\
    res_body rsp = "helloWO" /\
    PyStr.len (res_body rsp) <> -3.
Proof.
  eexists _, _. split; [vm_compute; reflexivity|].
  split; [evaluate|]. split; [reflexivity|].
  split; [reflexivity|]. split; [reflexivity|]. split; [reflexivity|].
  discriminate.
Qed.

(** C2: when the request declares a Content-Length whose integer value
    differs from the length of the parsed request body and its Content-Type
    contains [amf], the request body of the constructed object is the parsed
    body, not sliced. *)
Theorem amf_request_body_untouched `{Utils} data idx st b st' rq v N
    content_type before after :
  construct (Some data) idx st = (Ok b, st') ->
  raw_request data = Some rq ->
  parse_headers (rq_headers rq) !! "Content-Length" = Some v ->
  PyStr.int v = Some N ->
  N <> PyStr.len (default EmptyString (rq_body rq)) ->
  parse_headers (rq_headers rq) !! "Content-Type" = Some content_type ->
  content_type = before ++ "amf" ++ after ->
  exists req,
    request b = Some req /\
    req_body req = default EmptyString (rq_body rq).
Proof.
  intros Hc Hrq Hv HN _ Hct Hamf.
  apply construct_inv in Hc
    as (rq' & rs & status & hq & hs & Hrq' & _ & _ & _ & _ & Hreq & _).
  rewrite Hrq in Hrq'. injection Hrq' as <-.
  rewrite Hv, Hct in Hreq. simpl in Hreq. rewrite HN in Hreq.
  assert (PyStr.contains "amf" content_type = true) as Hin
    by (apply contains_app; eauto).
  rewrite Hin in Hreq. eexists. split; [exact Hreq|reflexivity].
Qed.

Lemma amf_request_body_untouched_witness :
  exists b st req,
    construct (Some Sample.amf) 0 ∅ = (Ok b, st) /\
    request b = Some req /\ req_body req = "abcdef".
Proof.
  assert (fst (construct (Some Sample.amf) 0 ∅) = Ok _) as Hc
    by (vm_compute; reflexivity).
  apply run_ok in Hc.
  destruct (amf_request_body_untouched Sample.amf 0 ∅ _ _
              (Sample.post ("Content-Type: application/x-amf" ++ Sample.CRLF
                            ++ "Content-Length: 3" ++ Sample.CRLF) "abcdef")
              "3" 3 "application/x-amf" "application/x-" EmptyString Hc)
    as (req & Hreq & Hbody);
    [reflexivity | evaluate | reflexivity | discriminate
    | evaluate | reflexivity |].
  eexists _, _, req. split; [exact Hc|]. auto.
Defined.

(** C3: reconciliation only shortens.  On either side, a declared
    Content-Length that is at least the length of the parsed body leaves the
    body of the constructed object equal to the parsed body: unchanged when
    the lengths agree, and never padded when more is declared. *)
Theorem reconciliation_never_pads `{Utils} data idx st b st' :
  construct (Some data) idx st = (Ok b, st') ->
  (forall rs v N,
     raw_response data = Some rs ->
     parse_headers (rs_headers rs) !! "Content-Length" = Some v ->
     PyStr.int v = Some N ->
     PyStr.len (default EmptyString (rs_body rs)) <= N ->
     exists rsp,
       response b = Some rsp /\
       res_body rsp = default EmptyString (rs_body rs)) /\
  (forall rq v N,
     raw_request data = Some rq ->
     parse_headers (rq_headers rq) !! "Content-Length" = Some v ->
     PyStr.int v = Some N ->
     PyStr.len (default EmptyString (rq_body rq)) <= N ->
     exists req,
       request b = Some req /\
       req_body req = default EmptyString (rq_body rq)).
Proof.
  intros Hc.
  apply construct_inv in Hc
    as (rq' & rs' & status & hq & hs & Hrq' & Hrs' & _ & _ & _ & Hreq & Hrsp).
  split.
  - intros rs v N Hrs Hv HN Hle.
    rewrite Hrs in Hrs'. injection Hrs' as <-.
    rewrite Hv in Hrsp. simpl in Hrsp. rewrite HN in Hrsp.
    eexists. split; [exact Hrsp|]. simpl. apply slice_to_all. exact Hle.
  - intros rq v N Hrq Hv HN Hle.
    rewrite Hrq in Hrq'. injection Hrq' as <-.
    rewrite Hv in Hreq. simpl in Hreq. rewrite HN in Hreq.
    eexists. split; [exact Hreq|]. simpl.
    destruct (PyStr.contains _ _); [reflexivity|].
    apply slice_to_all. exact Hle.
Qed.

Lemma reconciliation_never_pads_witness :
  exists b st rsp req,
    construct (Some Sample.overstated) 0 ∅ = (Ok b, st) /\
    response b = Some rsp /\ res_body rsp = "helloWORLD" /\
    request b = Some req /\ req_body req = "abc".
Proof.
  assert (fst (construct (Some Sample.overstated) 0 ∅) = Ok _) as Hc
    by (vm_compute; reflexivity).
  apply run_ok in Hc.
  destruct (reconciliation_never_pads Sample.overstated 0 ∅ _ _ Hc)
    as [Hresponse Hrequest].
  destruct (Hresponse
              (Sample.respond "200" ("Content-Length: 20" ++ Sample.CRLF)
                 "helloWORLD") "20" 20)
    as (rsp & Hrsp & Hrsp_body);
    [reflexivity | evaluate | reflexivity | vm_compute; discriminate |].
  destruct (Hrequest
              (Sample.post ("Content-Length: 10" ++ Sample.CRLF) "abc")
              "10" 10)
    as (req & Hreq & Hreq_body);
    [reflexivity | evaluate | reflexivity | vm_compute; discriminate |].
  eexists _, _, rsp, req. split; [exact Hc|]. auto.
Defined.

(** ** What makes the constructor raise *)

(** [populate] returns as soon as both sections are there, the status is
    absent or a number, and the URL library accepts host and path. *)
Lemma populate_ok `{Utils} data self st rq rs status joined u :
  raw_request data = Some rq ->
  raw_response data = Some rs ->
  coerce_status (rs_status rs) = Ok status ->
  urljoin (raw_host data) (rq_path rq) = Ok joined ->
  urlparse joined = Ok u ->
  exists b st', populate data self st = (Ok b, st').
Proof.
  intros Hrq Hrs Hstatus Hjoin Hparse.
  unfold populate, bind, getitem, alloc, lift, ret.
  rewrite Hrq, Hrs, Hstatus. simpl.
  unfold request_get_path. simpl. rewrite Hjoin, Hparse. eauto.
Qed.

(** A status that is no number stops [populate] with the error of [int]. *)
Lemma populate_bad_status `{Utils} data self st rq rs s :
  raw_request data = Some rq ->
  raw_response data = Some rs ->
  rs_status rs = Some s ->
  PyStr.int s = None ->
  fst (populate data self st) = Raise (ValueError s).
Proof.
  intros Hrq Hrs Hs Hint.
  unfold populate, bind, getitem, alloc, lift, ret, coerce_status.
  rewrite Hrq, Hrs, Hs, (int_raise _ Hint). reflexivity.
Qed.

(** C4, as amended: in a record that gets as far as reconciliation (both
    sections, a status that is absent or a number, a URL), a Content-Length
    that is present, not empty and not an integer makes the constructor raise
    the [ValueError] of [int]: on the response side always, on the request
    side when the response side did not raise first.  Only an empty value is
    skipped like an absent header, the body of that side staying as parsed. *)
Theorem invalid_content_length_raises `{Utils} data idx st rq rs status
    joined u :
  raw_request data = Some rq ->
  raw_response data = Some rs ->
  coerce_status (rs_status rs) = Ok status ->
  urljoin (raw_host data) (rq_path rq) = Ok joined ->
  urlparse joined = Ok u ->
  (forall v,
     parse_headers (rs_headers rs) !! "Content-Length" = Some v ->
     v <> EmptyString -> PyStr.int v = None ->
     fst (construct (Some data) idx st) = Raise (ValueError v)) /\
  (forall v,
     parse_headers (rq_headers rq) !! "Content-Length" = Some v ->
     v <> EmptyString -> PyStr.int v = None ->
     (forall w,
        parse_headers (rs_headers rs) !! "Content-Length" = Some w ->
        w = EmptyString \/ is_Some (PyStr.int w)) ->
     fst (construct (Some data) idx st) = Raise (ValueError v)) /\
  (parse_headers (rs_headers rs) !! "Content-Length" = Some EmptyString ->
   forall b st',
     construct (Some data) idx st = (Ok b, st') ->
     exists rsp,
       response b = Some rsp /\
       res_body rsp = default EmptyString (rs_body rs)) /\
  (parse_headers (rq_headers rq) !! "Content-Length" = Some EmptyString ->
   forall b st',
     construct (Some data) idx st = (Ok b, st') ->
     exists req,
       request b = Some req /\
       req_body req = default EmptyString (rq_body rq)).
Proof.
  intros Hrq Hrs Hstatus Hjoin Hparse.
  destruct (populate_ok data (empty_burp idx) st _ _ _ _ _
              Hrq Hrs Hstatus Hjoin Hparse) as (b1 & st1 & Hp).
  destruct (populate_inv _ _ _ _ _ Hp)
    as (rq' & rs' & status' & hq & hs & Hrq' & Hrs' & _ & Hreq & Hrsp
        & Hq & Hs).
  rewrite Hrq in Hrq'. injection Hrq' as <-.
  rewrite Hrs in Hrs'. injection Hrs' as <-.
  assert (construct (Some data) idx st =
          bind (reconcile_response b1) reconcile_request st1) as Hconstruct.
  { unfold construct, process. unfold bind at 1 2. rewrite Hp. reflexivity. }
  split; [|split; [|split]].
  - intros v Hv Hne Hint. rewrite Hconstruct. unfold bind.
    rewrite (reconcile_response_eq _ _ _ _ Hrsp Hs), Hv.
    apply nonempty_true in Hne. rewrite Hne, Hint. reflexivity.
  - intros v Hv Hne Hint Hvalid. rewrite Hconstruct. unfold bind.
    rewrite (reconcile_response_eq _ _ _ _ Hrsp Hs).
    apply nonempty_true in Hne.
    assert (forall b2 : Burp,
              request b2 = request b1 ->
              fst (reconcile_request b2 st1) = Raise (ValueError v)) as Hraise.
    { intros b2 Hsame. rewrite Hreq in Hsame.
      rewrite (reconcile_request_eq _ _ _ _ Hsame Hq), Hv. simpl.
      rewrite Hne, Hint. reflexivity. }
    destruct (parse_headers (rs_headers rs) !! "Content-Length") as [w|];
      [|apply Hraise; reflexivity].
    destruct (Hvalid w eq_refl) as [-> | [n Hn]].
    + simpl. apply Hraise. reflexivity.
    + rewrite Hn. destruct (PyStr.nonempty w); apply Hraise; reflexivity.
  - intros Hv b st' Hc. apply construct_inv in Hc
      as (rq2 & rs2 & status2 & hq2 & hs2 & _ & Hrs2 & _ & _ & _ & _ & Hb).
    rewrite Hrs in Hrs2. injection Hrs2 as <-.
    rewrite Hv in Hb. simpl in Hb. eauto.
  - intros Hv b st' Hc. apply construct_inv in Hc
      as (rq2 & rs2 & status2 & hq2 & hs2 & Hrq2 & _ & _ & _ & _ & Hb & _).
    rewrite Hrq in Hrq2. injection Hrq2 as <-.
    rewrite Hv in Hb. simpl in Hb. eauto.
Qed.

Lemma invalid_content_length_raises_witness :
  fst (construct (Some Sample.garbled_request) 0 ∅) = Raise (ValueError "abc")
  /\ exists b st rsp,
       construct (Some Sample.blank) 0 ∅ = (Ok b, st) /\
       response b = Some rsp /\ res_body rsp = "helloWORLD".
Proof.
  split.
  - destruct (@invalid_content_length_raises Sample.urllib Sample.utils
                Sample.garbled_request 0 ∅
                (Sample.post ("Content-Length: abc" ++ Sample.CRLF) "abcdef")
                (Sample.respond "200" EmptyString EmptyString)
                200 (Some "http://x/login") "http://x/login")
      as (_ & Hrequest & _);
      [reflexivity | reflexivity | reflexivity | reflexivity | reflexivity |].
    apply Hrequest; [evaluate | discriminate | reflexivity |].
    intros w Hw.
    assert (parse_headers (rs_headers
                             (Sample.respond "200" EmptyString EmptyString))
              !! "Content-Length" = None) as Hnone by evaluate.
    rewrite Hnone in Hw. discriminate.
  - assert (fst (construct (Some Sample.blank) 0 ∅) = Ok _) as Hc
      by (vm_compute; reflexivity).
    apply run_ok in Hc.
    destruct (@invalid_content_length_raises Sample.urllib Sample.utils
                Sample.blank 0 ∅ Sample.get_a
                (Sample.respond "200" ("Content-Length:" ++ Sample.CRLF)
                   "helloWORLD")
                200 (Some "http://x/a") "http://x/a")
      as (_ & _ & Hblank & _);
      [reflexivity | reflexivity | reflexivity | reflexivity | reflexivity |].
    destruct (Hblank ltac:(evaluate) _ _ Hc) as (rsp & Hrsp & Hbody).
    eexists _, _, rsp. split; [exact Hc|]. auto.
Defined.

(** C4, as stated, fails: the response declares [Content-Length: abc], which
    is present and no integer, and the constructor raises instead of leaving
    the body as parsed. *)
Lemma garbled_content_length_raises :
  parse_headers (Some ("Content-Length: abc" ++ Sample.CRLF))
    !! "Content-Length" = Some "abc" /\
  PyStr.int "abc" = None /\
  fst (construct (Some Sample.garbled) 0 ∅) = Raise (ValueError "abc") /\
  forall b st, construct (Some Sample.garbled) 0 ∅ <> (Ok b, st).
Proof.
  assert (fst (construct (Some Sample.garbled) 0 ∅)
          = Raise (ValueError "abc")) as Hraise by evaluate.
  split; [evaluate|]. split; [reflexivity|]. split; [exact Hraise|].
  intros b st Hc. rewrite Hc in Hraise. discriminate.
Qed.

(** C5, as amended: the status is coerced with [int].  An absent status
    gives 0 and a status that is a number gives that number, without raising
    at this step; a status that is no number raises the [ValueError] of
    [int], and the constructor with it. *)
Theorem status_coercion `{Utils} data idx st rq rs :
  raw_request data = Some rq ->
  raw_response data = Some rs ->
  (rs_status rs = None ->
   coerce_status (rs_status rs) = Ok 0 /\
   forall b st',
     construct (Some data) idx st = (Ok b, st') ->
     exists rsp, response b = Some rsp /\ res_status rsp = 0) /\
  (forall s n,
     rs_status rs = Some s -> PyStr.int s = Some n ->
     coerce_status (rs_status rs) = Ok n /\
     forall b st',
       construct (Some data) idx st = (Ok b, st') ->
       exists rsp, response b = Some rsp /\ res_status rsp = n) /\
  (forall s,
     rs_status rs = Some s -> PyStr.int s = None ->
     coerce_status (rs_status rs) = Raise (ValueError s) /\
     fst (construct (Some data) idx st) = Raise (ValueError s)).
Proof.
  intros Hrq Hrs.
  assert (forall n,
            coerce_status (rs_status rs) = Ok n ->
            forall b st',
              construct (Some data) idx st = (Ok b, st') ->
              exists rsp, response b = Some rsp /\ res_status rsp = n)
    as Hread.
  { intros n Hn b st' Hc. apply construct_inv in Hc
      as (rq2 & rs2 & status & hq & hs & _ & Hrs2 & Hstatus & _ & _ & _ & Hb).
    rewrite Hrs in Hrs2. injection Hrs2 as <-.
    rewrite Hn in Hstatus. injection Hstatus as <-. eauto. }
  split; [|split].
  - intros Hnone.
    assert (coerce_status (rs_status rs) = Ok 0) as Hzero
      by (rewrite Hnone; reflexivity).
    split; [exact Hzero | exact (Hread 0 Hzero)].
  - intros s n Hs Hint.
    assert (coerce_status (rs_status rs) = Ok n) as Hn
      by (rewrite Hs; apply int_ok; exact Hint).
    split; [exact Hn | exact (Hread n Hn)].
  - intros s Hs Hint. split.
    + rewrite Hs. apply int_raise. exact Hint.
    + unfold construct, process. unfold bind at 1 2.
      pose proof (populate_bad_status data (empty_burp idx) st rq rs s
                    Hrq Hrs Hs Hint) as Hp.
      destruct (populate data (empty_burp idx) st) as [[b1|e] st1];
        simpl in Hp; [discriminate|]. exact Hp.
Qed.

Lemma status_coercion_witness :
  fst (construct (Some Sample.bad_status) 1 ∅) = Raise (ValueError "abc").
Proof.
  destruct (status_coercion Sample.bad_status 1 ∅ Sample.get_a
              (Sample.respond "abc" EmptyString "helloWORLD")
              eq_refl eq_refl) as (_ & _ & Hbad).
  destruct (Hbad "abc" eq_refl eq_refl) as [_ Hraise]. exact Hraise.
Defined.

(** C5, as stated, fails: a status that is no number does not become 0, the
    constructor raises on it. *)
Lemma unparseable_status_raises :
  rs_status (Sample.respond "abc" EmptyString "helloWORLD") = Some "abc" /\
  PyStr.int "abc" = None /\
  fst (construct (Some Sample.bad_status) 0 ∅) = Raise (ValueError "abc") /\
  forall b st, construct (Some Sample.bad_status) 0 ∅ <> (Ok b, st).
Proof.
  assert (fst (construct (Some Sample.bad_status) 0 ∅)
          = Raise (ValueError "abc")) as Hraise by evaluate.
  split; [reflexivity|]. split; [reflexivity|]. split; [exact Hraise|].
  intros b st Hc. rewrite Hc in Hraise. discriminate.
Qed.

(** C6: a raw record without its [request] section, or without its
    [response] section, makes the constructor raise the [KeyError] that
    names the missing section, and no object is returned. *)
Theorem missing_section_raises `{Utils} data idx st :
  (raw_request data = None ->
   construct (Some data) idx st = (Raise (KeyError "request"), st)) /\
  (forall rq,
     raw_request data = Some rq -> raw_response data = None ->
     fst (construct (Some data) idx st) = Raise (KeyError "response")) /\
  (raw_request data = None \/ raw_response data = None ->
   forall b st', construct (Some data) idx st <> (Ok b, st')).
Proof.
  assert (raw_request data = None ->
          construct (Some data) idx st = (Raise (KeyError "request"), st))
    as Hrequest.
  { intros Hnone. unfold construct, process, populate, bind, getitem, raise.
    rewrite Hnone. reflexivity. }
  assert (forall rq,
            raw_request data = Some rq -> raw_response data = None ->
            fst (construct (Some data) idx st) = Raise (KeyError "response"))
    as Hresponse.
  { intros rq Hrq Hnone.
    unfold construct, process, populate, bind, getitem, alloc, raise.
    rewrite Hrq, Hnone. reflexivity. }
  split; [exact Hrequest|]. split; [exact Hresponse|].
  intros Hmissing b st' Hc.
  destruct (raw_request data) as [rq|] eqn:Hrq.
  - destruct Hmissing as [Hnone | Hnone]; [discriminate|].
    specialize (Hresponse rq eq_refl Hnone). rewrite Hc in Hresponse.
    discriminate.
  - rewrite (Hrequest eq_refl) in Hc. discriminate.
Qed.

Lemma missing_section_raises_witness :
  construct (Some Sample.no_request) 0 ∅ = (Raise (KeyError "request"), ∅) /\
  fst (construct (Some Sample.no_response) 0 ∅) = Raise (KeyError "response").
Proof.
  split.
  - apply (missing_section_raises Sample.no_request 0 ∅). reflexivity.
  - apply (missing_section_raises Sample.no_response 0 ∅) with Sample.get_a;
      reflexivity.
Defined.

(** ** Replay *)

(** Reading an attribute of the source leaves the store as it is. *)
Lemma getitem_store {A B} key (entry : option A) (f : A -> B) st r st' :
  bind (getitem key entry) (fun a => ret (f a)) st = (r, st') -> st' = st.
Proof.
  unfold bind, getitem, ret, raise. destruct entry; intros [= _ <-]; reflexivity.
Qed.

(** A replay that returns, read back: the effective headers are the
    caller's dictionary when one is given, a new copy of the source's
    otherwise, and the store changes by that copy and by the Content-Length
    written for a POST with a body. *)
Lemma replay_inv `{Utils} source given_url method body headers st rp st' :
  replay source given_url method body headers st = (Ok rp, st') ->
  exists st1,
    match headers with
    | Some l => rp_headers rp = l /\ st1 = st
    | None =>
        exists rq h,
          request source = Some rq /\ st !! req_headers rq = Some h /\
          rp_headers rp = fresh (dom st) /\
          st1 = <[fresh (dom st) := h]> st
    end /\
    if bool_decide (rp_method rp = Some "POST") && PyStr.nonempty (rp_body rp)
    then
      exists h,
        st1 !! rp_headers rp = Some h /\
        st' = <[rp_headers rp :=
                  <["Content-Length" :=
                      PyStr.str (String.length (rp_body rp))]> h]> st1
    else st' = st1.
Proof.
  unfold replay. unfold bind at 1.
  destruct (or_default given_url (source_url source) st)
    as [[url'|e] st0] eqn:Hurl; [|discriminate].
  assert (st0 = st) as ->.
  { destruct given_url; [injection Hurl as _ <-; reflexivity|].
    unfold or_default, source_url, ret, raise in Hurl.
    destruct (url source); injection Hurl as _ <-; reflexivity. }
  unfold bind at 1.
  destruct (match method with Some m => ret (Some m) | None => _ end st)
    as [[method'|e] st0] eqn:Hmethod; [|discriminate].
  assert (st0 = st) as ->.
  { destruct method; [injection Hmethod as _ <-; reflexivity|].
    apply getitem_store in Hmethod. exact Hmethod. }
  unfold bind at 1.
  destruct (or_default body (get_request_body source) st)
    as [[body'|e] st0] eqn:Hbody; [|discriminate].
  assert (st0 = st) as ->.
  { destruct body; [injection Hbody as _ <-; reflexivity|].
    apply getitem_store in Hbody. exact Hbody. }
  unfold bind at 1.
  destruct (or_default headers _ st)
    as [[headers'|e] st1] eqn:Hheaders; [|discriminate].
  intros Hr.
  assert ((if bool_decide (method' = Some "POST") && PyStr.nonempty body'
           then update headers' "Content-Length"
                  (PyStr.str (String.length body'))
           else ret tt) st1 = (Ok tt, st') /\
          rp = {| rp_url := url'; rp_method := method'; rp_body := body';
                  rp_headers := headers' |}) as [Hupdate ->].
  { unfold bind in Hr.
    destruct ((if bool_decide (method' = Some "POST") && PyStr.nonempty body'
               then update headers' "Content-Length"
                      (PyStr.str (String.length body'))
               else ret tt) st1) as [[[]|e] st2]; [|discriminate].
    unfold ret in Hr. injection Hr as <- <-. auto. }
  clear Hr. exists st1. simpl. split.
  - destruct headers as [l|].
    + injection Hheaders as <- <-. auto.
    + unfold or_default, get_request_headers, deepcopy, bind, getitem, deref,
        alloc, ret, raise in Hheaders.
      destruct (request source) as [rq|]; [|discriminate].
      destruct (st !! req_headers rq) as [h|] eqn:Hh; [|discriminate].
      injection Hheaders as <- <-. exists rq, h. auto.
  - destruct (bool_decide (method' = Some "POST") && PyStr.nonempty body').
    + unfold update in Hupdate.
      destruct (st1 !! headers') as [h|] eqn:Hh; [|discriminate].
      injection Hupdate as <-. eauto.
    + injection Hupdate as <-. reflexivity.
Qed.

(** C7: when the effective method is POST and the effective body is not
    empty, the effective headers map Content-Length to the decimal string of
    the length of the effective body, whatever the source's headers or the
    caller's dictionary said before. *)
Theorem replay_post_content_length `{Utils} source given_url method body
    headers st rp st' :
  replay source given_url method body headers st = (Ok rp, st') ->
  rp_method rp = Some "POST" ->
  rp_body rp <> EmptyString ->
  exists h,
    st' !! rp_headers rp = Some h /\
    h !! "Content-Length" = Some (PyStr.str (String.length (rp_body rp))).
Proof.
  intros Hr Hpost Hbody.
  apply replay_inv in Hr as (st1 & _ & Hwrite).
  rewrite bool_decide_true in Hwrite by exact Hpost.
  apply nonempty_true in Hbody. rewrite Hbody in Hwrite.
  destruct Hwrite as (h & _ & ->).
  eexists. split; [apply lookup_insert_eq | apply lookup_insert_eq].
Qed.

Lemma replay_post_content_length_witness :
  exists rp st h,
    replay Sample.login None None None None Sample.login_store = (Ok rp, st) /\
    Sample.login_store !! 1%positive = Some Sample.login_headers /\
    Sample.login_headers !! "Content-Length" = Some "10" /\
    st !! rp_headers rp = Some h /\
    h !! "Content-Length" = Some "6".
Proof.
  assert (fst (replay Sample.login None None None None Sample.login_store)
          = Ok _) as Hr by (vm_compute; reflexivity).
  apply run_ok in Hr.
  destruct (replay_post_content_length _ _ _ _ _ _ _ _ Hr)
    as (h & Hh & Hlen); [reflexivity | discriminate |].
  eexists _, _, h. split; [exact Hr|].
  split; [evaluate|]. split; [evaluate|].
  split; [exact Hh | exact Hlen].
Defined.

(** C8, as amended: with no headers given, the effective headers are a new
    object, different from the source's dictionary and from every object of
    the store so far.  It holds the entries of the source's request headers,
    with Content-Length overwritten when the method is POST and the body is
    not empty, and is equal to them otherwise.  The source's dictionary, like
    every object that was there, is unchanged, rewrite or not. *)
Theorem replay_copies_headers `{Utils} source given_url method body st rp
    st' :
  replay source given_url method body None st = (Ok rp, st') ->
  exists rq h,
    request source = Some rq /\
    st !! req_headers rq = Some h /\
    rp_headers rp <> req_headers rq /\
    (rp_headers rp ∉ dom st) /\
    st' !! req_headers rq = Some h /\
    (forall l, l ∈ dom st -> st' !! l = st !! l) /\
    st' !! rp_headers rp =
      Some (if bool_decide (rp_method rp = Some "POST")
               && PyStr.nonempty (rp_body rp)
            then <["Content-Length" :=
                     PyStr.str (String.length (rp_body rp))]> h
            else h).
Proof.
  intros Hr.
  apply replay_inv in Hr as (st1 & (rq & h & Hrq & Hh & Hnew & ->) & Hwrite).
  assert (rp_headers rp ∉ dom st) as Hfresh
    by (rewrite Hnew; apply is_fresh).
  assert (forall l, l ∈ dom st -> l <> rp_headers rp) as Hold
    by (intros l Hl ->; exact (Hfresh Hl)).
  assert (req_headers rq ∈ dom st) as Hsource
    by (apply elem_of_dom; eauto).
  rewrite <- Hnew in Hwrite.
  exists rq, h. split; [exact Hrq|]. split; [exact Hh|].
  split; [intros Heq; apply (Hold _ Hsource); congruence|].
  split; [exact Hfresh|].
  assert (forall l, l ∈ dom st -> st' !! l = st !! l) as Hframe.
  { intros l Hl. specialize (Hold l Hl).
    destruct (bool_decide _ && _).
    - destruct Hwrite as (h' & _ & ->).
      rewrite !lookup_insert_ne by congruence. reflexivity.
    - subst st'. rewrite lookup_insert_ne by congruence. reflexivity. }
  split; [rewrite (Hframe _ Hsource); exact Hh|].
  split; [exact Hframe|].
  destruct (bool_decide _ && _).
  - destruct Hwrite as (h' & Hh' & ->).
    rewrite lookup_insert_eq in Hh'. injection Hh' as <-.
    apply lookup_insert_eq.
  - subst st'. apply lookup_insert_eq.
Qed.

Lemma replay_copies_headers_witness :
  exists rp st,
    replay Sample.login None None None None Sample.login_store = (Ok rp, st) /\
    rp_headers rp <> 1%positive /\
    st !! 1%positive = Some Sample.login_headers /\
    st !! rp_headers rp =
      Some (<["Content-Length" := "6"]> Sample.login_headers).
Proof.
  assert (fst (replay Sample.login None None None None Sample.login_store)
          = Ok _) as Hr by (vm_compute; reflexivity).
  apply run_ok in Hr.
  destruct (replay_copies_headers _ _ _ _ _ _ _ Hr)
    as (rq & h & Hrq & Hh & Hne & _ & Hkept & _ & Hcopy).
  injection Hrq as <-. simpl in Hh, Hne, Hkept.
  assert (Sample.login_store !! 1%positive = Some Sample.login_headers)
    as Hsource by evaluate.
  rewrite Hsource in Hh. injection Hh as <-.
  eexists _, _. split; [exact Hr|]. split; [exact Hne|].
  split; [exact Hkept | exact Hcopy].
Defined.

(** C8, as stated, fails where the rewrite applies: the source's headers
    declare ten bytes, the replayed body has six, and the effective headers
    say 6, so they are not equal to the source's. *)
Lemma replay_headers_differ_after_rewrite :
  exists rp h,
    fst (replay Sample.login None None None None Sample.login_store)
      = Ok rp /\
    request Sample.login ≫= (fun rq => Sample.login_store !! req_headers rq)
      = Some Sample.login_headers /\
    snd (replay Sample.login None None None None Sample.login_store)
      !! rp_headers rp = Some h /\
    h <> Sample.login_headers.
Proof.
  eexists _, (<["Content-Length" := "6"]> Sample.login_headers).
  split; [vm_compute; reflexivity|].
  split; [evaluate|]. split; [evaluate|].
  intros Heq.
  assert (Sample.login_headers !! "Content-Length" = Some "6") as Hsix
    by (rewrite <- Heq; apply lookup_insert_eq).
  assert (Sample.login_headers !! "Content-Length" = Some "10") as Hten
    by evaluate.
  rewrite Hten in Hsix. discriminate.
Qed.

(** C10: a headers dictionary given by the caller is used as it is, by
    reference: the effective headers are that object, no object is added to
    the store, and when the method is POST and the body is not empty the
    Content-Length is written into the caller's dictionary itself. *)
Theorem replay_override_shared `{Utils} source given_url method body l st rp
    st' :
  replay source given_url method body (Some l) st = (Ok rp, st') ->
  rp_headers rp = l /\
  dom st' = dom st /\
  (forall l', l' <> l -> st' !! l' = st !! l') /\
  (rp_method rp = Some "POST" -> rp_body rp <> EmptyString ->
   exists h,
     st !! l = Some h /\
     st' !! l =
       Some (<["Content-Length" :=
                 PyStr.str (String.length (rp_body rp))]> h)).
Proof.
  intros Hr.
  apply replay_inv in Hr as (st1 & (Hl & ->) & Hwrite).
  rewrite Hl in Hwrite. split; [exact Hl|].
  destruct (bool_decide (rp_method rp = Some "POST")) eqn:Hpost;
    destruct (PyStr.nonempty (rp_body rp)) eqn:Hbody; simpl in Hwrite.
  - destruct Hwrite as (h & Hh & ->). split; [|split].
    + rewrite dom_insert_L.
      assert (l ∈ dom st) as Hin by (apply elem_of_dom; eauto).
      apply subseteq_union_1_L, singleton_subseteq_l, Hin.
    + intros l' Hne. apply lookup_insert_ne. congruence.
    + intros _ _. exists h. split; [exact Hh | apply lookup_insert_eq].
  - subst st'. split; [reflexivity|]. split; [reflexivity|].
    intros _ Hne. apply nonempty_true in Hne. congruence.
  - subst st'. split; [reflexivity|]. split; [reflexivity|].
    intros Hm. apply bool_decide_eq_false in Hpost. contradiction.
  - subst st'. split; [reflexivity|]. split; [reflexivity|].
    intros Hm. apply bool_decide_eq_false in Hpost. contradiction.
Qed.

Lemma replay_override_shared_witness :
  exists rp st,
    replay Sample.login None None (Some "user=a&next=b") (Some 3%positive)
      Sample.caller_store = (Ok rp, st) /\
    rp_headers rp = 3%positive /\
    Sample.caller_store !! 3%positive = Some {[ "Accept" := "*/*" ]} /\
    st !! 3%positive
      = Some (<["Content-Length" := "13"]> {[ "Accept" := "*/*" ]}).
Proof.
  assert (fst (replay Sample.login None None (Some "user=a&next=b")
                 (Some 3%positive) Sample.caller_store) = Ok _) as Hr
    by (vm_compute; reflexivity).
  apply run_ok in Hr.
  destruct (replay_override_shared _ _ _ _ _ _ _ _ Hr)
    as (Hsame & _ & _ & Hwrite).
  destruct (Hwrite eq_refl ltac:(discriminate)) as (h & Hh & Hh').
  assert (Sample.caller_store !! 3%positive = Some {[ "Accept" := "*/*" ]})
    as Hcaller by evaluate.
  rewrite Hcaller in Hh. injection Hh as <-.
  eexists _, _. split; [exact Hr|]. split; [exact Hsame|].
  split; [exact Hcaller | exact Hh'].
Defined.

(** ** Header lookups *)

(** C9: for a header name that the headers of the object do not hold (under
    the title-cased key the lookups use), the request-side lookup returns the
    empty string and the response-side lookup returns [None]. *)
Theorem header_lookup_defaults `{Utils} (self : Burp) name st :
  (forall rq h,
     request self = Some rq -> st !! req_headers rq = Some h ->
     h !! PyStr.title name = None ->
     get_request_header self name st = (Ok EmptyString, st)) /\
  (forall rsp h,
     response self = Some rsp -> st !! res_headers rsp = Some h ->
     h !! PyStr.title name = None ->
     get_response_header self name st = (Ok None, st)).
Proof.
  split.
  - intros rq h Hrq Hh Hnone.
    unfold get_request_header, get_request_headers, bind, getitem, deref, ret.
    rewrite Hrq. simpl. rewrite Hh, Hnone. reflexivity.
  - intros rsp h Hrsp Hh Hnone.
    unfold get_response_header, get_response_headers, bind, getitem, deref,
      ret.
    rewrite Hrsp. simpl. rewrite Hh, Hnone. reflexivity.
Qed.

Lemma header_lookup_defaults_witness :
  get_request_header Sample.login "x-token" Sample.login_store
    = (Ok EmptyString, Sample.login_store) /\
  get_response_header Sample.login "x-token" Sample.login_store
    = (Ok None, Sample.login_store).
Proof.
  destruct (header_lookup_defaults Sample.login "x-token" Sample.login_store)
    as [Hrequest Hresponse].
  split.
  - eapply (Hrequest _ Sample.login_headers);
      [reflexivity | evaluate | evaluate].
  - eapply (Hresponse _ ∅); [reflexivity | evaluate | evaluate].
Defined.

(** ** Further properties of reconciliation *)

Lemma slice_to_length s n :
  PyStr.len (PyStr.slice_to s n) =
  if (n <? 0)%Z then Z.max 0 (PyStr.len s + n) else Z.min n (PyStr.len s).
Proof.
  unfold PyStr.slice_to, PyStr.len.
  destruct (Z.ltb_spec n 0); rewrite take_length; lia.
Qed.

Lemma slice_to_prefix s n : exists rest, s = PyStr.slice_to s n ++ rest.
Proof.
  unfold PyStr.slice_to. destruct (n <? 0)%Z; apply take_is_prefix.
Qed.

Lemma take_take n s : PyStr.take n (PyStr.take n s) = PyStr.take n s.
Proof.
  apply take_all. rewrite take_length. lia.
Qed.

Lemma slice_to_twice s n :
  0 <= n -> PyStr.slice_to (PyStr.slice_to s n) n = PyStr.slice_to s n.
Proof.
  intros Hn. apply slice_to_all. rewrite slice_to_length.
  destruct (Z.ltb_spec n 0); lia.
Qed.

(** X1: the request side slices like the response side.  When the request
    declares a Content-Length that [int] reads as [N], not negative, its
    Content-Type does not mention [amf] and the parsed body is longer than
    [N], the request body of the constructed object is the first [N] bytes
    of the parsed body. *)
Theorem request_body_truncated `{Utils} data idx st b st' rq v N :
  construct (Some data) idx st = (Ok b, st') ->
  raw_request data = Some rq ->
  parse_headers (rq_headers rq) !! "Content-Length" = Some v ->
  PyStr.int v = Some N ->
  0 <= N ->
  N < PyStr.len (default EmptyString (rq_body rq)) ->
  PyStr.contains "amf"
    (default EmptyString (parse_headers (rq_headers rq) !! "Content-Type"))
    = false ->
  exists req,
    request b = Some req /\
    PyStr.len (req_body req) = N /\
    req_body req =
      PyStr.take (Z.to_nat N) (default EmptyString (rq_body rq)) /\
    exists rest, default EmptyString (rq_body rq) = req_body req ++ rest.
Proof.
  intros Hc Hrq Hv HN Hpos Hlong Hplain.
  apply construct_inv in Hc
    as (rq' & rs & status & hq & hs & Hrq' & _ & _ & _ & _ & Hreq & _).
  rewrite Hrq in Hrq'. injection Hrq' as <-.
  rewrite Hv in Hreq. simpl in Hreq. rewrite HN, Hplain in Hreq.
  eexists. split; [exact Hreq|]. simpl.
  split; [rewrite slice_to_length; destruct (Z.ltb_spec N 0); lia|].
  split; [|apply slice_to_prefix].
  unfold PyStr.slice_to. destruct (Z.ltb_spec N 0); [lia|reflexivity].
Qed.

Lemma request_body_truncated_witness :
  exists b st req,
    construct (Some Sample.long_post) 0 ∅ = (Ok b, st) /\
    request b = Some req /\ req_body req = PyStr.take 3 "abcdef".
Proof.
  assert (fst (construct (Some Sample.long_post) 0 ∅) = Ok _) as Hc
    by (vm_compute; reflexivity).
  apply run_ok in Hc.
  destruct (request_body_truncated Sample.long_post 0 ∅ _ _
              (Sample.post ("Content-Length: 3" ++ Sample.CRLF) "abcdef")
              "3" 3 Hc)
    as (req & Hreq & _ & Htake & _);
    [reflexivity | evaluate | reflexivity | lia | reflexivity | evaluate |].
  eexists _, _, req. split; [exact Hc|]. auto.
Defined.

(** X2: a negative declared length is a slice from the end.  When [int]
    reads the response Content-Length as [N] below zero, the body of the
    constructed object is the parsed body without its last [-N] bytes (empty
    when it has no more than that). *)
Theorem negative_length_drops_tail `{Utils} data idx st b st' rs v N :
  construct (Some data) idx st = (Ok b, st') ->
  raw_response data = Some rs ->
  parse_headers (rs_headers rs) !! "Content-Length" = Some v ->
  PyStr.int v = Some N ->
  N < 0 ->
  exists rsp,
    response b = Some rsp /\
    PyStr.len (res_body rsp) =
      Z.max 0 (PyStr.len (default EmptyString (rs_body rs)) + N) /\
    exists rest, default EmptyString (rs_body rs) = res_body rsp ++ rest.
Proof.
  intros Hc Hrs Hv HN Hneg.
  apply construct_inv in Hc
    as (rq & rs' & status & hq & hs & _ & Hrs' & _ & _ & _ & _ & Hrsp).
  rewrite Hrs in Hrs'. injection Hrs' as <-.
  rewrite Hv in Hrsp. simpl in Hrsp. rewrite HN in Hrsp.
  eexists. split; [exact Hrsp|]. simpl.
  split; [|apply slice_to_prefix].
  rewrite slice_to_length. destruct (Z.ltb_spec N 0); [reflexivity|lia].
Qed.

Lemma negative_length_drops_tail_witness :
  exists b st rsp,
    construct (Some Sample.negative) 0 ∅ = (Ok b, st) /\
    response b = Some rsp /\ PyStr.len (res_body rsp) = 7.
Proof.
  assert (fst (construct (Some Sample.negative) 0 ∅) = Ok _) as Hc
    by (vm_compute; reflexivity).
  apply run_ok in Hc.
  destruct (negative_length_drops_tail Sample.negative 0 ∅ _ _
              (Sample.respond "200" ("Content-Length: -3" ++ Sample.CRLF)
                 "helloWORLD") "-3" (-3) Hc)
    as (rsp & Hrsp & Hlen & _);
    [reflexivity | evaluate | reflexivity | lia |].
  eexists _, _, rsp. split; [exact Hc|]. auto.
Defined.

(** X3: the declared length bounds what [__len__] reports.  When [int]
    reads the response Content-Length as [N], not negative, the length of
    the constructed object is the smaller of [N] and the length of the parsed
    body, so it never exceeds [N]. *)
Theorem declared_length_bounds_len `{Utils} data idx st b st' rs v N :
  construct (Some data) idx st = (Ok b, st') ->
  raw_response data = Some rs ->
  parse_headers (rs_headers rs) !! "Content-Length" = Some v ->
  PyStr.int v = Some N ->
  0 <= N ->
  burp_len b st' =
    (Ok (Z.min N (PyStr.len (default EmptyString (rs_body rs)))), st') /\
  Z.min N (PyStr.len (default EmptyString (rs_body rs))) <= N.
Proof.
  intros Hc Hrs Hv HN Hpos.
  apply construct_inv in Hc
    as (rq & rs' & status & hq & hs & _ & Hrs' & _ & _ & _ & _ & Hrsp).
  rewrite Hrs in Hrs'. injection Hrs' as <-.
  rewrite Hv in Hrsp. simpl in Hrsp. rewrite HN in Hrsp.
  split; [|lia].
  unfold burp_len, get_response_body, bind, getitem, ret.
  rewrite Hrsp. simpl. rewrite slice_to_length.
  destruct (Z.ltb_spec N 0); [lia|reflexivity].
Qed.

Lemma declared_length_bounds_len_witness :
  exists b st,
    construct (Some Sample.hello) 0 ∅ = (Ok b, st) /\
    burp_len b st = (Ok 5, st).
Proof.
  assert (fst (construct (Some Sample.hello) 0 ∅) = Ok _) as Hc
    by (vm_compute; reflexivity).
  apply run_ok in Hc.
  destruct (declared_length_bounds_len Sample.hello 0 ∅ _ _
              (Sample.respond "200" ("Content-Length: 5" ++ Sample.CRLF)
                 "helloWORLD") "5" 5 Hc)
    as [Hlen _]; [reflexivity | evaluate | reflexivity | lia |].
  eexists _, _. split; [exact Hc | exact Hlen].
Defined.

(** X4: a side without a Content-Length header keeps its parsed body, the
    empty string when the raw record has none. *)
Theorem absent_content_length_keeps_body `{Utils} data idx st b st' :
  construct (Some data) idx st = (Ok b, st') ->
  (forall rs,
     raw_response data = Some rs ->
     parse_headers (rs_headers rs) !! "Content-Length" = None ->
     exists rsp,
       response b = Some rsp /\
       res_body rsp = default EmptyString (rs_body rs)) /\
  (forall rq,
     raw_request data = Some rq ->
     parse_headers (rq_headers rq) !! "Content-Length" = None ->
     exists req,
       request b = Some req /\
       req_body req = default EmptyString (rq_body rq)).
Proof.
  intros Hc.
  apply construct_inv in Hc
    as (rq' & rs' & status & hq & hs & Hrq' & Hrs' & _ & _ & _ & Hreq & Hrsp).
  split.
  - intros rs Hrs Hnone. rewrite Hrs in Hrs'. injection Hrs' as <-.
    rewrite Hnone in Hrsp. eauto.
  - intros rq Hrq Hnone. rewrite Hrq in Hrq'. injection Hrq' as <-.
    rewrite Hnone in Hreq. eauto.
Qed.

Lemma absent_content_length_keeps_body_witness :
  exists b st req,
    construct (Some Sample.hello) 0 ∅ = (Ok b, st) /\
    request b = Some req /\ req_body req = EmptyString.
Proof.
  assert (fst (construct (Some Sample.hello) 0 ∅) = Ok _) as Hc
    by (vm_compute; reflexivity).
  apply run_ok in Hc.
  destruct (absent_content_length_keeps_body Sample.hello 0 ∅ _ _ Hc)
    as [_ Hrequest].
  destruct (Hrequest Sample.get_a eq_refl ltac:(evaluate))
    as (req & Hreq & Hbody).
  eexists _, _, req. split; [exact Hc|]. auto.
Defined.

(** ** Further properties of the constructor *)

#[local] Set Warnings "-clear-no-such-hyp".

Lemma set_response_same `{UrlLib} (self : Burp) rsp :
  response self = Some rsp ->
  set_response (set_response_body (res_body rsp) rsp) self = self.
Proof. destruct self, rsp. simpl. intros ->. reflexivity. Qed.

Lemma set_request_same `{UrlLib} (self : Burp) rq :
  request self = Some rq ->
  set_request (set_request_body (req_body rq) rq) self = self.
Proof. destruct self, rq. simpl. intros ->. reflexivity. Qed.

(** The two reconciliation steps touch nothing but the body of their side,
    and leave the store alone. *)
Lemma reconcile_response_frame `{Utils} (self : Burp) st b st' :
  reconcile_response self st = (Ok b, st') ->
  st' = st /\
  index b = index self /\ host b = host self /\
  ip_address b = ip_address self /\ time b = time self /\
  request b = request self /\ url b = url self /\
  parameters b = parameters self /\ replayed b = replayed self.
Proof.
  unfold reconcile_response, get_response_header, get_response_headers,
    burp_len, get_response_body, bind, getitem, deref, lift, ret, raise, int.
  intros Hr. repeat case_match; simplify_eq; auto 10.
Qed.

Lemma reconcile_request_frame `{Utils} (self : Burp) st b st' :
  reconcile_request self st = (Ok b, st') ->
  st' = st /\
  index b = index self /\ host b = host self /\
  ip_address b = ip_address self /\ time b = time self /\
  response b = response self /\ url b = url self /\
  parameters b = parameters self /\ replayed b = replayed self.
Proof.
  unfold reconcile_request, get_request_header, get_request_headers,
    get_request_body, bind, getitem, deref, lift, ret, raise, int.
  intros Hr. repeat case_match; simplify_eq; auto 10.
Qed.

(** A construction that returns went through its three steps. *)
Lemma construct_steps `{Utils} data idx st b st' :
  construct (Some data) idx st = (Ok b, st') ->
  exists b1 b2,
    populate data (empty_burp idx) st = (Ok b1, st') /\
    reconcile_response b1 st' = (Ok b2, st') /\
    reconcile_request b2 st' = (Ok b, st').
Proof.
  unfold construct, process, bind. intros Hc.
  destruct (populate data (empty_burp idx) st) as [[b1|e1] st1];
    [|discriminate].
  destruct (reconcile_response b1 st1) as [[b2|e2] st2] eqn:Hresponse;
    [|discriminate].
  pose proof (reconcile_response_frame _ _ _ _ Hresponse) as [-> _].
  pose proof (reconcile_request_frame _ _ _ _ Hc) as [-> _].
  eauto.
Qed.

(** What [populate] returns, attribute by attribute. *)
Lemma populate_fields `{Utils} data (self : Burp) st b st' :
  populate data self st = (Ok b, st') ->
  exists rq rs joined u,
    raw_request data = Some rq /\ raw_response data = Some rs /\
    urljoin (raw_host data) (rq_path rq) = Ok joined /\
    urlparse joined = Ok u /\
    index b = index self /\ host b = raw_host data /\
    ip_address b = raw_ip_address data /\ time b = raw_time data /\
    url b = Some u /\ replayed b = replayed self /\
    parameters b = parse_parameters st' (set_parameters (parameters self) b) /\
    st' = <[fresh (dom (<[fresh (dom st) := parse_headers (rq_headers rq)]> st))
              := parse_headers (rs_headers rs)]>
            (<[fresh (dom st) := parse_headers (rq_headers rq)]> st).
Proof.
  unfold populate, bind, getitem, alloc, lift, ret, raise. intros Hp.
  destruct (raw_request data) as [rq|] eqn:Hrq; [|discriminate].
  destruct (raw_response data) as [rs|] eqn:Hrs; [|discriminate].
  destruct (coerce_status (rs_status rs)) as [status|]; [|discriminate].
  unfold request_get_path in Hp. simpl in Hp.
  destruct (urljoin (raw_host data) (rq_path rq)) as [joined|] eqn:Hjoin;
    [|discriminate].
  destruct (urlparse joined) as [u|] eqn:Hparse; [|discriminate].
  injection Hp as <- <-.
  exists rq, rs, joined, u. repeat split; try reflexivity; assumption.
Qed.

(** A declared length the constructor can live with: empty, or a number. *)
Lemma response_step_ok `{Utils} (self : Burp) st rsp h :
  response self = Some rsp ->
  st !! res_headers rsp = Some h ->
  (exists b, reconcile_response self st = (Ok b, st)) <->
  (forall v, h !! "Content-Length" = Some v ->
             v = EmptyString \/ is_Some (PyStr.int v)).
Proof.
  intros Hrsp Hh. rewrite (reconcile_response_eq _ _ _ _ Hrsp Hh).
  destruct (h !! "Content-Length") as [[|c v]|]; simpl.
  - split; [intros _ w [= <-]; auto | eauto].
  - destruct (PyStr.int (String c v)) as [n|] eqn:Hint.
    + split; [intros _ w [= <-]; right; rewrite Hint; eauto | eauto].
    + split; [intros [b Hb]; discriminate|].
      intros Hvalid. destruct (Hvalid _ eq_refl) as [Hempty | [n Hn]];
        [discriminate|]. rewrite Hint in Hn. discriminate.
  - split; [intros _ w Hw; discriminate | eauto].
Qed.

Lemma request_step_ok `{Utils} (self : Burp) st rq h :
  request self = Some rq ->
  st !! req_headers rq = Some h ->
  (exists b, reconcile_request self st = (Ok b, st)) <->
  (forall v, h !! "Content-Length" = Some v ->
             v = EmptyString \/ is_Some (PyStr.int v)).
Proof.
  intros Hrq Hh. rewrite (reconcile_request_eq _ _ _ _ Hrq Hh).
  destruct (h !! "Content-Length") as [[|c v]|]; simpl.
  - split; [intros _ w [= <-]; auto | eauto].
  - destruct (PyStr.int (String c v)) as [n|] eqn:Hint.
    + split; [intros _ w [= <-]; right; rewrite Hint; eauto | eauto].
    + split; [intros [b Hb]; discriminate|].
      intros Hvalid. destruct (Hvalid _ eq_refl) as [Hempty | [n Hn]];
        [discriminate|]. rewrite Hint in Hn. discriminate.
  - split; [intros _ w Hw; discriminate | eauto].
Qed.

(** X5: when the constructor returns.  A raw record gives an object exactly
    when it has both sections, its status is absent or a number, the URL
    library accepts host and path, and on each side the Content-Length is
    absent, empty or a number. *)
Theorem construct_succeeds_iff `{Utils} data idx st :
  (exists b st', construct (Some data) idx st = (Ok b, st')) <->
  (exists rq rs status joined u,
     raw_request data = Some rq /\ raw_response data = Some rs /\
     coerce_status (rs_status rs) = Ok status /\
     urljoin (raw_host data) (rq_path rq) = Ok joined /\
     urlparse joined = Ok u /\
     (forall v, parse_headers (rs_headers rs) !! "Content-Length" = Some v ->
                v = EmptyString \/ is_Some (PyStr.int v)) /\
     (forall v, parse_headers (rq_headers rq) !! "Content-Length" = Some v ->
                v = EmptyString \/ is_Some (PyStr.int v))).
Proof.
  split.
  - intros (b & st' & Hc).
    apply construct_steps in Hc as (b1 & b2 & Hp & Hresponse & Hrequest).
    pose proof (populate_fields _ _ _ _ _ Hp)
      as (rq & rs & joined & u & Hrq & Hrs & Hjoin & Hparse & _).
    apply populate_inv in Hp
      as (rq' & rs' & status & hq & hs & Hrq' & Hrs' & Hstatus & Hreq & Hrsp
          & Hq & Hs).
    rewrite Hrq in Hrq'. injection Hrq' as <-.
    rewrite Hrs in Hrs'. injection Hrs' as <-.
    exists rq, rs, status, joined, u. repeat split; try assumption.
    + apply (response_step_ok _ _ _ _ Hrsp Hs). eauto.
    + pose proof (reconcile_response_frame _ _ _ _ Hresponse)
        as (_ & _ & _ & _ & _ & Hsame & _).
      rewrite Hreq in Hsame.
      apply (request_step_ok _ _ _ _ Hsame Hq). eauto.
  - intros (rq & rs & status & joined & u & Hrq & Hrs & Hstatus & Hjoin
            & Hparse & Hresponse & Hrequest).
    destruct (populate_ok data (empty_burp idx) st _ _ _ _ _
                Hrq Hrs Hstatus Hjoin Hparse) as (b1 & st1 & Hp).
    pose proof (populate_inv _ _ _ _ _ Hp)
      as (rq' & rs' & status' & hq & hs & Hrq' & Hrs' & _ & Hreq & Hrsp
          & Hq & Hs).
    rewrite Hrq in Hrq'. injection Hrq' as <-.
    rewrite Hrs in Hrs'. injection Hrs' as <-.
    apply (response_step_ok _ _ _ _ Hrsp Hs) in Hresponse as [b2 Hb2].
    pose proof (reconcile_response_frame _ _ _ _ Hb2)
      as (_ & _ & _ & _ & _ & Hsame & _).
    rewrite Hreq in Hsame.
    apply (request_step_ok _ _ _ _ Hsame Hq) in Hrequest as [b Hb].
    exists b, st1. unfold construct, process, bind.
    rewrite Hp, Hb2. exact Hb.
Qed.

(** X6: what construction copies.  The index is the one given, host, IP
    address and time are those of the raw record, method, path and version
    of the request and version and reason of the response are copied as they
    are, the URL is what the URL library makes of host and path, and the
    replay history is empty. *)
Theorem construct_copies_fields `{Utils} data idx st b st' :
  construct (Some data) idx st = (Ok b, st') ->
  index b = idx /\ host b = raw_host data /\
  ip_address b = raw_ip_address data /\ time b = raw_time data /\
  replayed b = [] /\
  exists rq rs req rsp joined u,
    raw_request data = Some rq /\ raw_response data = Some rs /\
    request b = Some req /\ response b = Some rsp /\
    req_method req = rq_method rq /\ req_path req = rq_path rq /\
    req_version req = rq_version rq /\
    res_version rsp = rs_version rs /\ res_reason rsp = rs_reason rs /\
    urljoin (raw_host data) (rq_path rq) = Ok joined /\
    urlparse joined = Ok u /\ url b = Some u.
Proof.
  intros Hc.
  pose proof (construct_steps _ _ _ _ _ Hc)
    as (b1 & b2 & Hp & Hresponse & Hrequest).
  apply populate_fields in Hp
    as (rq & rs & joined & u & Hrq & Hrs & Hjoin & Hparse & Hindex & Hhost
        & Hip & Htime & Hurl & Hreplayed & _).
  apply reconcile_response_frame in Hresponse
    as (_ & Hindex2 & Hhost2 & Hip2 & Htime2 & _ & Hurl2 & _ & Hreplayed2).
  apply reconcile_request_frame in Hrequest
    as (_ & Hindex3 & Hhost3 & Hip3 & Htime3 & _ & Hurl3 & _ & Hreplayed3).
  apply construct_inv in Hc
    as (rq' & rs' & status & hq & hs & Hrq' & Hrs' & _ & _ & _ & Hreq & Hrsp).
  rewrite Hrq in Hrq'. injection Hrq' as <-.
  rewrite Hrs in Hrs'. injection Hrs' as <-.
  simpl in Hindex, Hreplayed.
  split; [congruence|]. split; [congruence|]. split; [congruence|].
  split; [congruence|]. split; [congruence|].
  eexists rq, rs, _, _, joined, u.
  split; [exact Hrq|]. split; [exact Hrs|].
  split; [exact Hreq|]. split; [exact Hrsp|]. simpl.
  repeat split; try assumption. congruence.
Qed.

Lemma construct_copies_fields_witness :
  exists b st req,
    construct (Some Sample.hello) 7 ∅ = (Ok b, st) /\
    index b = 7 /\ host b = Some "http://x" /\ replayed b = [] /\
    request b = Some req /\ req_method req = Some "GET" /\
    req_path req = Some "/a".
Proof.
  assert (fst (construct (Some Sample.hello) 7 ∅) = Ok _) as Hc
    by (vm_compute; reflexivity).
  apply run_ok in Hc.
  destruct (construct_copies_fields Sample.hello 7 ∅ _ _ Hc)
    as (Hindex & Hhost & _ & _ & Hreplayed & rq & rs & req & rsp & joined & u
        & Hrq & _ & Hreq & _ & Hmethod & Hpath & _).
  injection Hrq as <-.
  eexists _, _, req. split; [exact Hc|]. auto 10.
Defined.

(** Reconciliation keeps the header dictionaries of both sides. *)
Lemma reconcile_response_headers `{Utils} (self : Burp) st b st' :
  reconcile_response self st = (Ok b, st') ->
  res_headers <$> response b = res_headers <$> response self.
Proof.
  unfold reconcile_response, get_response_header, get_response_headers,
    burp_len, get_response_body, bind, getitem, deref, lift, ret, raise, int.
  intros Hr. repeat case_match; simplify_eq; try reflexivity;
    match goal with Hb : response _ = Some _ |- _ => rewrite Hb end;
    reflexivity.
Qed.

Lemma reconcile_request_headers `{Utils} (self : Burp) st b st' :
  reconcile_request self st = (Ok b, st') ->
  req_headers <$> request b = req_headers <$> request self.
Proof.
  unfold reconcile_request, get_request_header, get_request_headers,
    get_request_body, bind, getitem, deref, lift, ret, raise, int.
  intros Hr. repeat case_match; simplify_eq; try reflexivity;
    match goal with Hb : request _ = Some _ |- _ => rewrite Hb end;
    reflexivity.
Qed.

(** The references [populate] stores: the first two unused ones. *)
Lemma populate_refs `{Utils} data (self : Burp) st b st' rq :
  populate data self st = (Ok b, st') ->
  raw_request data = Some rq ->
  req_headers <$> request b = Some (fresh (dom st)) /\
  res_headers <$> response b =
    Some (fresh (dom (<[fresh (dom st) := parse_headers (rq_headers rq)]> st))).
Proof.
  unfold populate, bind, getitem, alloc, lift, ret, raise. intros Hp Hrq.
  rewrite Hrq in Hp.
  destruct (raw_response data) as [rs|]; [|discriminate].
  destruct (coerce_status (rs_status rs)) as [status|]; [|discriminate].
  destruct (urljoin _ _) as [joined|]; [|discriminate].
  destruct (urlparse joined) as [u|]; [|discriminate].
  injection Hp as <- <-. split; reflexivity.
Qed.

(** X7: construction adds two objects to the store and touches no other.
    The request headers and the response headers of the object are two
    different dictionaries, neither of them in the store before; they hold
    what the header parser returned; and every object that was in the store
    is as it was. *)
Theorem construct_allocates_two `{Utils} data idx st b st' :
  construct (Some data) idx st = (Ok b, st') ->
  exists rq rs req rsp,
    raw_request data = Some rq /\ raw_response data = Some rs /\
    request b = Some req /\ response b = Some rsp /\
    req_headers req <> res_headers rsp /\
    (req_headers req ∉ dom st) /\ (res_headers rsp ∉ dom st) /\
    st' !! req_headers req = Some (parse_headers (rq_headers rq)) /\
    st' !! res_headers rsp = Some (parse_headers (rs_headers rs)) /\
    dom st' = {[req_headers req; res_headers rsp]} ∪ dom st /\
    (forall l, l ∈ dom st -> st' !! l = st !! l).
Proof.
  intros Hc.
  pose proof (construct_steps _ _ _ _ _ Hc)
    as (b1 & b2 & Hp & Hresponse & Hrequest).
  pose proof (populate_fields _ _ _ _ _ Hp)
    as (rq & rs & joined & u & Hrq & Hrs & _ & _ & _ & _ & _ & _ & _ & _ & _
        & Hstore).
  destruct (populate_refs _ _ _ _ _ _ Hp Hrq) as [Hq1 Hs1].
  apply reconcile_response_headers in Hresponse as Hs2.
  apply reconcile_response_frame in Hresponse
    as (_ & _ & _ & _ & _ & Hq2 & _).
  apply reconcile_request_headers in Hrequest as Hq3.
  apply reconcile_request_frame in Hrequest
    as (_ & _ & _ & _ & _ & Hs3 & _).
  assert (req_headers <$> request b = Some (fresh (dom st))) as Hq
    by (rewrite Hq3, Hq2; exact Hq1).
  assert (res_headers <$> response b =
          Some (fresh (dom (<[fresh (dom st)
                              := parse_headers (rq_headers rq)]> st)))) as Hs
    by (rewrite Hs3, Hs2; exact Hs1).
  clear Hq1 Hq2 Hq3 Hs1 Hs2 Hs3.
  destruct (request b) as [req|]; [|discriminate].
  destruct (response b) as [rsp|]; [|discriminate].
  simpl in Hq, Hs. injection Hq as Hq3. injection Hs as Hs3.
  set (hq := fresh (dom st)) in *.
  set (st1 := <[hq := parse_headers (rq_headers rq)]> st) in *.
  set (hs := fresh (dom st1)) in *.
  assert (hq ∉ dom st) as Hfresh_q by apply is_fresh.
  assert (hs ∉ dom st1) as Hfresh_s by apply is_fresh.
  assert (dom st1 = {[hq]} ∪ dom st) as Hdom1
    by (subst st1; apply dom_insert_L).
  rewrite Hdom1 in Hfresh_s.
  assert (hs <> hq) as Hne by set_solver.
  assert (hs ∉ dom st) as Hfresh_s' by set_solver.
  exists rq, rs, req, rsp. rewrite Hq3, Hs3.
  split; [exact Hrq|]. split; [exact Hrs|].
  split; [reflexivity|]. split; [reflexivity|].
  split; [congruence|]. split; [exact Hfresh_q|]. split; [exact Hfresh_s'|].
  subst st'.
  split; [rewrite lookup_insert_ne by exact Hne; apply lookup_insert_eq|].
  split; [apply lookup_insert_eq|].
  split; [rewrite dom_insert_L, Hdom1; set_solver|].
  intros l Hl. rewrite lookup_insert_ne by set_solver.
  subst st1. rewrite lookup_insert_ne by set_solver. reflexivity.
Qed.

Lemma construct_allocates_two_witness :
  exists b st req rsp,
    construct (Some Sample.hello) 0 Sample.login_store = (Ok b, st) /\
    request b = Some req /\ response b = Some rsp /\
    req_headers req <> res_headers rsp /\
    st !! 1%positive = Sample.login_store !! 1%positive.
Proof.
  assert (fst (construct (Some Sample.hello) 0 Sample.login_store) = Ok _)
    as Hc by (vm_compute; reflexivity).
  apply run_ok in Hc.
  destruct (construct_allocates_two Sample.hello 0 Sample.login_store _ _ Hc)
    as (rq & rs & req & rsp & _ & _ & Hreq & Hrsp & Hne & _ & _ & _ & _ & _
        & Hframe).
  eexists _, _, req, rsp. split; [exact Hc|].
  split; [exact Hreq|]. split; [exact Hrsp|]. split; [exact Hne|].
  apply Hframe. apply elem_of_dom.
  exists Sample.login_headers. evaluate.
Defined.

(** X8: the header lookups of a constructed object read the parsed headers.
    Whatever the name, the request-side lookup returns the value the header
    parser gave under the title-cased name, the empty string when there is
    none, and the response-side lookup returns that value or [None]; neither
    changes the store. *)
Theorem constructed_header_lookup `{Utils} data idx st b st' :
  construct (Some data) idx st = (Ok b, st') ->
  exists rq rs,
    raw_request data = Some rq /\ raw_response data = Some rs /\
    forall name,
      get_request_header b name st' =
        (Ok (default EmptyString
               (parse_headers (rq_headers rq) !! PyStr.title name)), st') /\
      get_response_header b name st' =
        (Ok (parse_headers (rs_headers rs) !! PyStr.title name), st').
Proof.
  intros Hc.
  apply construct_inv in Hc
    as (rq & rs & status & hq & hs & Hrq & Hrs & _ & Hq & Hs & Hreq & Hrsp).
  exists rq, rs. split; [exact Hrq|]. split; [exact Hrs|].
  intros name. split.
  - unfold get_request_header, get_request_headers, bind, getitem, deref, ret.
    rewrite Hreq. simpl. rewrite Hq. reflexivity.
  - unfold get_response_header, get_response_headers, bind, getitem, deref,
      ret.
    rewrite Hrsp. simpl. rewrite Hs. reflexivity.
Qed.

Lemma constructed_header_lookup_witness :
  exists b st,
    construct (Some Sample.hello) 0 ∅ = (Ok b, st) /\
    get_response_header b "content-length" st = (Ok (Some "5"), st) /\
    get_request_header b "HOST" st = (Ok "x", st).
Proof.
  assert (fst (construct (Some Sample.hello) 0 ∅) = Ok _) as Hc
    by (vm_compute; reflexivity).
  apply run_ok in Hc.
  destruct (constructed_header_lookup Sample.hello 0 ∅ _ _ Hc)
    as (rq & rs & Hrq & Hrs & Hlookup).
  injection Hrq as <-. injection Hrs as <-.
  eexists _, _. split; [exact Hc|]. split.
  - destruct (Hlookup "content-length") as [_ Hresponse].
    rewrite Hresponse.
    match goal with
    | |- (Ok ?found, _) = _ => assert (found = Some "5") as -> by evaluate
    end.
    reflexivity.
  - destruct (Hlookup "HOST") as [Hrequest _].
    rewrite Hrequest.
    match goal with
    | |- (Ok ?found, _) = _ => assert (found = "x") as -> by evaluate
    end.
    reflexivity.
Defined.

(** The declared lengths of a record that was constructed. *)
Lemma construct_succeeds_iff_lengths `{Utils} data idx st :
  (exists b st', construct (Some data) idx st = (Ok b, st')) ->
  exists rq rs,
    raw_request data = Some rq /\ raw_response data = Some rs /\
    (forall v, parse_headers (rs_headers rs) !! "Content-Length" = Some v ->
               v = EmptyString \/ is_Some (PyStr.int v)) /\
    (forall v, parse_headers (rq_headers rq) !! "Content-Length" = Some v ->
               v = EmptyString \/ is_Some (PyStr.int v)).
Proof.
  intros (b & st' & Hc).
  apply construct_steps in Hc as (b1 & b2 & Hp & Hresponse & Hrequest).
  apply populate_inv in Hp
    as (rq & rs & status & hq & hs & Hrq & Hrs & Hstatus & Hreq & Hrsp
        & Hq & Hs).
  exists rq, rs. split; [exact Hrq|]. split; [exact Hrs|]. split.
  - apply (response_step_ok _ _ _ _ Hrsp Hs). eauto.
  - pose proof (reconcile_response_frame _ _ _ _ Hresponse)
      as (_ & _ & _ & _ & _ & Hsame & _).
    rewrite Hreq in Hsame.
    apply (request_step_ok _ _ _ _ Hsame Hq). eauto.
Qed.

(** X9: reconciliation settles.  When no declared length of the record is
    negative, running the two reconciliation steps again on the constructed
    object returns the same object: nothing is trimmed twice. *)
Theorem reconciliation_settles `{Utils} data idx st b st' :
  construct (Some data) idx st = (Ok b, st') ->
  (forall rs v N,
     raw_response data = Some rs ->
     parse_headers (rs_headers rs) !! "Content-Length" = Some v ->
     PyStr.int v = Some N -> 0 <= N) ->
  (forall rq v N,
     raw_request data = Some rq ->
     parse_headers (rq_headers rq) !! "Content-Length" = Some v ->
     PyStr.int v = Some N -> 0 <= N) ->
  reconcile_response b st' = (Ok b, st') /\
  reconcile_request b st' = (Ok b, st').
Proof.
  intros Hc Hresponse Hrequest.
  assert (exists c st2, construct (Some data) idx st = (Ok c, st2)) as Hok
    by eauto.
  apply construct_succeeds_iff_lengths in Hok
    as (rq0 & rs0 & Hrq0 & Hrs0 & Hvalid_s & Hvalid_q).
  apply construct_inv in Hc
    as (rq & rs & status & hq & hs & Hrq & Hrs & _ & Hq & Hs & Hreq & Hrsp).
  rewrite Hrq in Hrq0. injection Hrq0 as <-.
  rewrite Hrs in Hrs0. injection Hrs0 as <-.
  specialize (Hresponse rs). specialize (Hrequest rq).
  split.
  - rewrite (reconcile_response_eq _ _ _ _ Hrsp Hs). simpl.
    destruct (parse_headers (rs_headers rs) !! "Content-Length")
      as [[|c v]|]; simpl in *; try reflexivity.
    destruct (Hvalid_s _ eq_refl) as [Hempty | [N HN]]; [discriminate|].
    rewrite HN in *. rewrite slice_to_twice by eauto.
    rewrite <- (set_response_same b _ Hrsp) at 2. reflexivity.
  - rewrite (reconcile_request_eq _ _ _ _ Hreq Hq). simpl.
    destruct (parse_headers (rq_headers rq) !! "Content-Length")
      as [[|c v]|]; simpl in *; try reflexivity.
    destruct (Hvalid_q _ eq_refl) as [Hempty | [N HN]]; [discriminate|].
    rewrite HN in *.
    destruct (PyStr.contains _ _); [reflexivity|].
    rewrite slice_to_twice by eauto.
    rewrite <- (set_request_same b _ Hreq) at 2. reflexivity.
Qed.

Lemma reconciliation_settles_witness :
  exists b st,
    construct (Some Sample.hello) 0 ∅ = (Ok b, st) /\
    reconcile_response b st = (Ok b, st) /\
    reconcile_request b st = (Ok b, st).
Proof.
  assert (fst (construct (Some Sample.hello) 0 ∅) = Ok _) as Hc
    by (vm_compute; reflexivity).
  apply run_ok in Hc.
  eexists _, _. split; [exact Hc|].
  apply (reconciliation_settles Sample.hello 0 ∅ _ _ Hc).
  - intros rs v N [= <-] Hv HN.
    assert (parse_headers
              (rs_headers
                 (Sample.respond "200" ("Content-Length: 5" ++ Sample.CRLF)
                    "helloWORLD")) !! "Content-Length" = Some "5") as Hfive
      by evaluate.
    rewrite Hfive in Hv. injection Hv as <-.
    assert (PyStr.int "5" = Some 5) as Hint by reflexivity.
    rewrite Hint in HN. injection HN as <-. lia.
  - intros rq v N [= <-] Hv HN.
    assert (parse_headers (rq_headers Sample.get_a) !! "Content-Length"
            = None) as Hnone by evaluate.
    rewrite Hnone in Hv. discriminate.
Defined.

(** X10: the parameters are parsed before the bodies are sliced.  The
    parameters of a constructed object are what the parameter parser made of
    the object as [populate] left it, with the bodies still as parsed and no
    parameters yet, whatever reconciliation did to the bodies afterwards. *)
Theorem parameters_precede_reconciliation `{Utils} data idx st b st' :
  construct (Some data) idx st = (Ok b, st') ->
  exists b1 rq rs req1 rsp1,
    populate data (empty_burp idx) st = (Ok b1, st') /\
    parameters b = parse_parameters st' (set_parameters ∅ b1) /\
    raw_request data = Some rq /\ raw_response data = Some rs /\
    request b1 = Some req1 /\
    req_body req1 = default EmptyString (rq_body rq) /\
    response b1 = Some rsp1 /\
    res_body rsp1 = default EmptyString (rs_body rs).
Proof.
  intros Hc.
  apply construct_steps in Hc as (b1 & b2 & Hp & Hresponse & Hrequest).
  pose proof (populate_fields _ _ _ _ _ Hp)
    as (_ & _ & _ & _ & _ & _ & _ & _ & _ & _ & _ & _ & _ & _ & Hparams & _).
  pose proof (populate_inv _ _ _ _ _ Hp)
    as (rq & rs & status & hq & hs & Hrq & Hrs & _ & Hreq & Hrsp & _).
  apply reconcile_response_frame in Hresponse
    as (_ & _ & _ & _ & _ & _ & _ & Hparams2 & _).
  apply reconcile_request_frame in Hrequest
    as (_ & _ & _ & _ & _ & _ & _ & Hparams3 & _).
  simpl in Hparams.
  exists b1, rq, rs. eexists _, _.
  split; [exact Hp|]. split; [congruence|].
  split; [exact Hrq|]. split; [exact Hrs|].
  split; [exact Hreq|]. split; [reflexivity|].
  split; [exact Hrsp | reflexivity].
Qed.

Lemma parameters_precede_reconciliation_witness :
  exists b st b1 rsp rsp1,
    construct (Some Sample.hello) 0 ∅ = (Ok b, st) /\
    populate Sample.hello (empty_burp 0) ∅ = (Ok b1, st) /\
    parameters b = parse_parameters st (set_parameters ∅ b1) /\
    response b1 = Some rsp1 /\ res_body rsp1 = "helloWORLD" /\
    response b = Some rsp /\ res_body rsp = "hello".
Proof.
  assert (fst (construct (Some Sample.hello) 0 ∅) = Ok _) as Hc
    by (vm_compute; reflexivity).
  apply run_ok in Hc.
  destruct (parameters_precede_reconciliation Sample.hello 0 ∅ _ _ Hc)
    as (b1 & rq & rs & req1 & rsp1 & Hp & Hparams & _ & Hrs & _ & _ & Hrsp1
        & Hbody1).
  injection Hrs as <-.
  eexists _, _, b1, _, rsp1. split; [exact Hc|]. split; [exact Hp|].
  split; [exact Hparams|]. split; [exact Hrsp1|]. split; [exact Hbody1|].
  split; reflexivity.
Defined.

(** ** The empty object *)

(** X11: an object made without data is inert.  The constructor returns it
    without touching the store, whatever the index; every accessor that
    reads the request or the response then raises the [KeyError] of the key
    it reads, [__len__] and the two header lookups included, and [replay]
    with nothing given raises on the URL it cannot read. *)
Theorem empty_object_accessors_raise `{Utils} idx st :
  construct None idx st = (Ok (empty_burp idx), st) /\
  get_request_body (empty_burp idx) st = (Raise (KeyError "body"), st) /\
  get_request_method (empty_burp idx) st = (Raise (KeyError "method"), st) /\
  get_request_version (empty_burp idx) st = (Raise (KeyError "version"), st) /\
  get_request_headers (empty_burp idx) st = (Raise (KeyError "headers"), st) /\
  get_request_path (empty_burp idx) st = (Raise (KeyError "path"), st) /\
  get_response_version (empty_burp idx) st
    = (Raise (KeyError "version"), st) /\
  get_response_status (empty_burp idx) st = (Raise (KeyError "status"), st) /\
  get_response_reason (empty_burp idx) st = (Raise (KeyError "reason"), st) /\
  get_response_headers (empty_burp idx) st
    = (Raise (KeyError "headers"), st) /\
  get_response_body (empty_burp idx) st = (Raise (KeyError "body"), st) /\
  burp_len (empty_burp idx) st = (Raise (KeyError "body"), st) /\
  (forall name,
     get_request_header (empty_burp idx) name st
       = (Raise (KeyError "headers"), st) /\
     get_response_header (empty_burp idx) name st
       = (Raise (KeyError "headers"), st)) /\
  replay (empty_burp idx) None None None None st
    = (Raise (AttributeError "geturl"), st).
Proof.
  repeat split; reflexivity.
Qed.

(** ** Header names *)

(** A character is either an upper-case letter, which [tolower] turns into
    the lower-case letter that [toupper] brings back, or left alone by
    [tolower]. *)
Lemma tolower_cases c :
  (PyStr.isupper c = true /\ PyStr.islower c = false /\
   PyStr.islower (PyStr.tolower c) = true /\
   PyStr.toupper (PyStr.tolower c) = c) \/
  (PyStr.isupper c = false /\ PyStr.tolower c = c).
Proof.
  destruct c as [[] [] [] [] [] [] [] []];
    first [ right; split; reflexivity | left; repeat split; reflexivity ].
Qed.

(** Likewise for [toupper] on the lower-case letters. *)
Lemma toupper_cases c :
  PyStr.islower c = true ->
  PyStr.isupper c = false /\
  PyStr.islower (PyStr.toupper c) = false /\
  PyStr.isupper (PyStr.toupper c) = true.
Proof.
  destruct c as [[] [] [] [] [] [] [] []]; intros Hc;
    first [ discriminate Hc | repeat split; reflexivity ].
Qed.

Lemma title_from_lower cased s :
  PyStr.title_from cased (lower s) = PyStr.title_from cased s.
Proof.
  revert cased; induction s as [|c s IH]; intros cased; [reflexivity|].
  simpl.
  destruct (tolower_cases c) as [(Hup & Hlow & Hlow' & Hback) | (Hup & Hsame)].
  - rewrite Hlow', Hlow, Hup, Hback, !IH. reflexivity.
  - rewrite !Hsame, Hup, !IH. reflexivity.
Qed.

Lemma title_from_idempotent cased s :
  PyStr.title_from cased (PyStr.title_from cased s)
  = PyStr.title_from cased s.
Proof.
  revert cased; induction s as [|c s IH]; intros cased; [reflexivity|].
  simpl. destruct (PyStr.islower c) eqn:Hlow.
  - destruct (toupper_cases c Hlow) as (Hup & Hlow' & Hup').
    destruct cased; simpl.
    + rewrite Hlow, IH. reflexivity.
    + rewrite Hlow', Hup', IH. reflexivity.
  - destruct (PyStr.isupper c) eqn:Hup.
    + destruct (tolower_cases c) as [(_ & _ & Hlow' & _) | (Hup' & _)];
        [|congruence].
      destruct cased; simpl.
      * rewrite Hlow', IH. reflexivity.
      * rewrite Hlow, Hup, IH. reflexivity.
    + simpl. rewrite Hlow, Hup, IH. reflexivity.
Qed.

(** X12: header lookups do not depend on the case of the name.  Two names
    that differ only in the case of their letters, and a name and its
    title-cased form, give the same result on the request side and on the
    response side, for every object and store. *)
Theorem header_lookup_ignores_case `{Utils} (self : Burp) name other st :
  lower name = lower other ->
  get_request_header self name st = get_request_header self other st /\
  get_response_header self name st = get_response_header self other st /\
  get_request_header self (PyStr.title name) st
    = get_request_header self name st /\
  get_response_header self (PyStr.title name) st
    = get_response_header self name st.
Proof.
  intros Hcase.
  assert (PyStr.title name = PyStr.title other) as Htitle.
  { unfold PyStr.title.
    rewrite <- (title_from_lower false name), Hcase.
    apply title_from_lower. }
  assert (PyStr.title (PyStr.title name) = PyStr.title name) as Hagain
    by apply title_from_idempotent.
  unfold get_request_header, get_response_header.
  rewrite Hagain, Htitle. auto.
Qed.

Lemma header_lookup_ignores_case_witness :
  get_request_header Sample.login "content-length" Sample.login_store
  = get_request_header Sample.login "CONTENT-LENGTH" Sample.login_store.
Proof.
  destruct (header_lookup_ignores_case Sample.login "content-length"
              "CONTENT-LENGTH" Sample.login_store eq_refl) as [Hsame _].
  exact Hsame.
Defined.

(** ** Further properties of replay *)

(** X13: what a replay sends.  An argument that is given is used as it is;
    one that is left out is read from the source: the URL through [geturl],
    the method and the body from the request. *)
Theorem replay_effective_values `{Utils} source given_url method body
    headers st rp st' :
  replay source given_url method body headers st = (Ok rp, st') ->
  (forall u, given_url = Some u -> rp_url rp = u) /\
  (given_url = None ->
   exists u, url source = Some u /\ rp_url rp = geturl u) /\
  (forall m, method = Some m -> rp_method rp = Some m) /\
  (method = None ->
   exists rq, request source = Some rq /\ rp_method rp = req_method rq) /\
  (forall b, body = Some b -> rp_body rp = b) /\
  (body = None ->
   exists rq, request source = Some rq /\ rp_body rp = req_body rq).
Proof.
  unfold replay, or_default, source_url, get_request_method,
    get_request_body, get_request_headers, deepcopy, deref, alloc, update,
    bind, getitem, ret, raise.
  intros Hr.
  repeat case_match; simplify_eq; simpl;
    repeat split; intros; simplify_eq; eauto.
Qed.

Lemma replay_effective_values_witness :
  exists rp st,
    replay Sample.login None (Some "PUT") None None Sample.login_store
      = (Ok rp, st) /\
    rp_url rp = "http://x/login" /\ rp_method rp = Some "PUT" /\
    rp_body rp = "user=a".
Proof.
  assert (fst (replay Sample.login None (Some "PUT") None None
                 Sample.login_store) = Ok _) as Hr
    by (vm_compute; reflexivity).
  apply run_ok in Hr.
  destruct (replay_effective_values _ _ _ _ _ _ _ _ Hr)
    as (_ & Hurl & Hmethod & _ & _ & Hbody).
  destruct (Hurl eq_refl) as (u & [= <-] & Hu).
  destruct (Hbody eq_refl) as (rq & [= <-] & Hb).
  eexists _, _. split; [exact Hr|].
  split; [exact Hu|]. split; [exact (Hmethod _ eq_refl) | exact Hb].
Defined.

(** One decimal digit read by [digits]. *)
Lemma digits_digit c k acc rest :
  PyStr.isdigit c = true -> Z.of_N (PyStr.code c - 48) = Z.of_nat k ->
  PyStr.digits acc (String c rest) = PyStr.digits (10 * acc + Z.of_nat k) rest.
Proof. intros Hc Hk. simpl. rewrite Hc, Hk. reflexivity. Qed.

Lemma digits_string_of_uint d a :
  PyStr.digits (Z.of_nat a) (NilEmpty.string_of_uint d)
  = (Z.of_nat (Nat.of_uint_acc d a), EmptyString).
Proof.
  revert a; induction d as [|d IH|d IH|d IH|d IH|d IH|d IH|d IH|d IH|d IH|d IH];
    intros a; [reflexivity|..];
    cbn [NilEmpty.string_of_uint Nat.of_uint_acc];
    rewrite <- IH;
    [ rewrite (digits_digit _ 0%nat) by reflexivity
    | rewrite (digits_digit _ 1%nat) by reflexivity
    | rewrite (digits_digit _ 2%nat) by reflexivity
    | rewrite (digits_digit _ 3%nat) by reflexivity
    | rewrite (digits_digit _ 4%nat) by reflexivity
    | rewrite (digits_digit _ 5%nat) by reflexivity
    | rewrite (digits_digit _ 6%nat) by reflexivity
    | rewrite (digits_digit _ 7%nat) by reflexivity
    | rewrite (digits_digit _ 8%nat) by reflexivity
    | rewrite (digits_digit _ 9%nat) by reflexivity ];
    f_equal; rewrite Nat.tail_mul_spec; lia.
Qed.

(** [int] reads back what [str] prints. *)
Lemma int_str n : PyStr.int (PyStr.str n) = Some (Z.of_nat n).
Proof.
  unfold PyStr.str.
  rewrite <- (DecimalNat.Unsigned.of_to n) at 2.
  generalize (Nat.to_uint n). intros d.
  assert (forall c k rest,
            PyStr.isdigit c = true -> PyStr.isspace c = false ->
            c <> "-"%char -> c <> "+"%char ->
            Z.of_N (PyStr.code c - 48) = Z.of_nat k ->
            PyStr.int (String c (NilEmpty.string_of_uint rest))
            = Some (Z.of_nat (Nat.of_uint_acc rest k))) as Hdigit.
  { intros c k rest Hc Hspace Hminus Hplus Hk. unfold PyStr.int.
    cbn [PyStr.lstrip]. rewrite Hspace.
    destruct c as [[] [] [] [] [] [] [] []]; try discriminate Hc;
      try congruence;
      rewrite (digits_digit _ k) by assumption;
      change (10 * 0 + Z.of_nat k) with (Z.of_nat k);
      rewrite digits_string_of_uint; reflexivity. }
  destruct d; [reflexivity|..]; unfold NilZero.string_of_uint;
    cbn [NilEmpty.string_of_uint]; unfold Nat.of_uint;
    cbn [Nat.of_uint_acc Nat.tail_mul Nat.tail_addmul];
    apply Hdigit; first [ reflexivity | discriminate ].
Qed.

(** Reading an attribute of the source gives the same in every store. *)
Lemma getitem_pure {A B} key (entry : option A) (f : A -> B) st r st' :
  bind (getitem key entry) (fun a => ret (f a)) st = (r, st') ->
  forall st2, bind (getitem key entry) (fun a => ret (f a)) st2 = (r, st2).
Proof.
  unfold bind, getitem, ret, raise.
  destruct entry; intros [= <- _] st2; reflexivity.
Qed.

Lemma source_url_pure `{Utils} (source : Burp) st r st' :
  source_url source st = (r, st') ->
  forall st2, source_url source st2 = (r, st2).
Proof.
  unfold source_url, ret, raise.
  destruct (url source); intros [= <- _] st2; reflexivity.
Qed.

(** The effective URL, method and body of a replay do not depend on the
    store, nor on the headers given: with a dictionary of the caller the
    replay is the rewrite of that dictionary and nothing else. *)
Lemma replay_with_headers `{Utils} source given_url method body headers st rp
    st' :
  replay source given_url method body headers st = (Ok rp, st') ->
  forall l st2,
    replay source given_url method body (Some l) st2 =
    bind (if bool_decide (rp_method rp = Some "POST")
             && PyStr.nonempty (rp_body rp)
          then update l "Content-Length"
                 (PyStr.str (String.length (rp_body rp)))
          else ret tt)
         (fun _ => ret {| rp_url := rp_url rp; rp_method := rp_method rp;
                          rp_body := rp_body rp; rp_headers := l |}) st2.
Proof.
  unfold replay. intros Hr l st2.
  unfold bind at 1 in Hr. unfold bind at 1.
  destruct (or_default given_url (source_url source) st)
    as [[url'|e] st0] eqn:Hurl; [|discriminate].
  assert (st0 = st /\
          or_default given_url (source_url source) st2 = (Ok url', st2))
    as [-> ->].
  { destruct given_url; [injection Hurl as <- <-; auto|]. simpl in *.
    pose proof (source_url_pure _ _ _ _ Hurl st) as Hst.
    rewrite Hurl in Hst. injection Hst as ->.
    split; [reflexivity | exact (source_url_pure _ _ _ _ Hurl st2)]. }
  unfold bind at 1 in Hr. unfold bind at 1.
  destruct (match method with
            | Some m => ret (Some m)
            | None => get_request_method source
            end st) as [[method'|e] st0] eqn:Hmethod; [|discriminate].
  assert (st0 = st /\
          match method with
          | Some m => ret (Some m)
          | None => get_request_method source
          end st2 = (Ok method', st2)) as [-> ->].
  { destruct method; [injection Hmethod as <- <-; auto|].
    pose proof (getitem_pure _ _ _ _ _ _ Hmethod st) as Hst.
    unfold get_request_method in Hmethod. rewrite Hmethod in Hst.
    injection Hst as ->.
    split; [reflexivity | exact (getitem_pure _ _ _ _ _ _ Hmethod st2)]. }
  unfold bind at 1 in Hr. unfold bind at 1.
  destruct (or_default body (get_request_body source) st)
    as [[body'|e] st0] eqn:Hbody; [|discriminate].
  assert (st0 = st /\
          or_default body (get_request_body source) st2 = (Ok body', st2))
    as [-> ->].
  { destruct body; [injection Hbody as <- <-; auto|]. simpl in *.
    pose proof (getitem_pure _ _ _ _ _ _ Hbody st) as Hst.
    unfold get_request_body in Hbody. rewrite Hbody in Hst.
    injection Hst as ->.
    split; [reflexivity | exact (getitem_pure _ _ _ _ _ _ Hbody st2)]. }
  unfold bind at 1 in Hr.
  destruct (or_default headers _ st) as [[headers'|e] st1]; [|discriminate].
  assert (rp_url rp = url' /\ rp_method rp = method' /\ rp_body rp = body')
    as (-> & -> & ->).
  { unfold bind in Hr.
    destruct ((if bool_decide (method' = Some "POST") && PyStr.nonempty body'
               then update headers' "Content-Length"
                      (PyStr.str (String.length body'))
               else ret tt) st1) as [[[]|e] st3]; [|discriminate].
    unfold ret in Hr. injection Hr as <- _. auto. }
  reflexivity.
Qed.

(** X14: a replay with a headers dictionary given, and a method other than
    POST or an empty body, leaves the whole store as it was: nothing is
    copied and nothing is written. *)
Theorem replay_without_post_keeps_store `{Utils} source given_url method
    body l st rp st' :
  replay source given_url method body (Some l) st = (Ok rp, st') ->
  rp_method rp <> Some "POST" \/ rp_body rp = EmptyString ->
  st' = st.
Proof.
  intros Hr Hplain.
  apply replay_inv in Hr as (st1 & (_ & ->) & Hwrite).
  destruct Hplain as [Hmethod | Hbody].
  - rewrite bool_decide_false in Hwrite by exact Hmethod. exact Hwrite.
  - rewrite Hbody in Hwrite. rewrite andb_false_r in Hwrite. exact Hwrite.
Qed.

Lemma replay_without_post_keeps_store_witness :
  exists rp,
    replay Sample.login None (Some "GET") None (Some 3%positive)
      Sample.caller_store = (Ok rp, Sample.caller_store).
Proof.
  assert (fst (replay Sample.login None (Some "GET") None (Some 3%positive)
                 Sample.caller_store) = Ok _) as Hr
    by (vm_compute; reflexivity).
  apply run_ok in Hr.
  pose proof (replay_without_post_keeps_store _ _ _ _ _ _ _ _ Hr
                ltac:(left; discriminate)) as Hsame.
  rewrite Hsame in Hr. eexists. exact Hr.
Defined.

(** X15: replaying twice into the same dictionary changes nothing more.  A
    replay with a headers dictionary given, run again with the same
    arguments on the store the first run left, returns the same request and
    leaves that store as it is. *)
Theorem replay_again_same `{Utils} source given_url method body l st rp st' :
  replay source given_url method body (Some l) st = (Ok rp, st') ->
  replay source given_url method body (Some l) st' = (Ok rp, st').
Proof.
  intros Hr. rewrite (replay_with_headers _ _ _ _ _ _ _ _ Hr).
  apply replay_inv in Hr as (st1 & (Hl & ->) & Hwrite).
  assert ({| rp_url := rp_url rp; rp_method := rp_method rp;
             rp_body := rp_body rp; rp_headers := l |} = rp) as Hrp
    by (destruct rp; simpl in *; congruence).
  unfold bind, update, ret. rewrite Hrp.
  destruct (bool_decide _ && _).
  - destruct Hwrite as (h & Hh & ->). rewrite Hl.
    rewrite lookup_insert_eq, !insert_insert_eq. reflexivity.
  - subst st'. reflexivity.
Qed.

Lemma replay_again_same_witness :
  exists rp st,
    replay Sample.login None None None (Some 3%positive) Sample.caller_store
      = (Ok rp, st) /\
    replay Sample.login None None None (Some 3%positive) st = (Ok rp, st).
Proof.
  assert (fst (replay Sample.login None None None (Some 3%positive)
                 Sample.caller_store) = Ok _) as Hr
    by (vm_compute; reflexivity).
  apply run_ok in Hr.
  eexists _, _. split; [exact Hr|].
  exact (replay_again_same _ _ _ _ _ _ _ _ Hr).
Defined.

(** X16: the Content-Length a replay writes is one the constructor reads
    back.  For a POST with a body, [int] applied to the value written in the
    effective headers gives the length of the effective body, so a record
    built from what was sent has nothing to slice. *)
Theorem replay_content_length_reads_back `{Utils} source given_url method
    body headers st rp st' :
  replay source given_url method body headers st = (Ok rp, st') ->
  rp_method rp = Some "POST" ->
  rp_body rp <> EmptyString ->
  exists h v,
    st' !! rp_headers rp = Some h /\
    h !! "Content-Length" = Some v /\
    PyStr.int v = Some (PyStr.len (rp_body rp)) /\
    PyStr.slice_to (rp_body rp) (PyStr.len (rp_body rp)) = rp_body rp.
Proof.
  intros Hr Hpost Hbody.
  apply replay_inv in Hr as (st1 & _ & Hwrite).
  rewrite bool_decide_true in Hwrite by exact Hpost.
  apply nonempty_true in Hbody. rewrite Hbody in Hwrite.
  destruct Hwrite as (h & _ & ->).
  eexists _, _. split; [apply lookup_insert_eq|].
  split; [apply lookup_insert_eq|].
  split; [apply int_str | apply slice_to_all; lia].
Qed.

Lemma replay_content_length_reads_back_witness :
  exists rp st h v,
    replay Sample.login None None None None Sample.login_store = (Ok rp, st) /\
    st !! rp_headers rp = Some h /\
    h !! "Content-Length" = Some v /\
    PyStr.int v = Some 6.
Proof.
  assert (fst (replay Sample.login None None None None Sample.login_store)
          = Ok _) as Hr by (vm_compute; reflexivity).
  apply run_ok in Hr.
  destruct (replay_content_length_reads_back _ _ _ _ _ _ _ _ Hr)
    as (h & v & Hh & Hv & Hint & _); [reflexivity | discriminate |].
  eexists _, _, h, v. split; [exact Hr|]. auto.
Defined.

(** X17: a source whose request was never filled.  With the URL given,
    [replay] raises the [KeyError] of the first attribute it has to read
    from the request, the method, then the body, then the headers, and the
    store is left as it was. *)
Theorem replay_unfilled_source_raises `{Utils} (source : Burp) u m b body
    headers st :
  request source = None ->
  replay source (Some u) None body headers st
    = (Raise (KeyError "method"), st) /\
  replay source (Some u) (Some m) None headers st
    = (Raise (KeyError "body"), st) /\
  replay source (Some u) (Some m) (Some b) None st
    = (Raise (KeyError "headers"), st).
Proof.
  intros Hnone.
  unfold replay, or_default, get_request_method, get_request_body,
    get_request_headers, bind, getitem, ret, raise.
  rewrite Hnone. auto.
Qed.

Lemma replay_unfilled_source_raises_witness :
  replay (empty_burp 0) (Some "http://x/") (Some "POST") (Some "a=1") None
    Sample.login_store = (Raise (KeyError "headers"), Sample.login_store).
Proof.
  apply (replay_unfilled_source_raises (empty_burp 0) "http://x/" "POST" "a=1"
           None None Sample.login_store eq_refl).
Defined.

(** ** Display *)

Lemma append_length s t :
  String.length (s ++ t) = (String.length s + String.length t)%nat.
Proof.
  induction s as [|c s IH]; [reflexivity|].
  rewrite append_cons. simpl. rewrite IH. reflexivity.
Qed.

Lemma append_inv_tail s1 s2 t : s1 ++ t = s2 ++ t -> s1 = s2.
Proof.
  revert s2; induction s1 as [|c1 s1 IH]; intros [|c2 s2] Heq.
  - reflexivity.
  - apply (f_equal String.length) in Heq.
    rewrite !append_length in Heq. simpl in Heq. lia.
  - apply (f_equal String.length) in Heq.
    rewrite !append_length in Heq. simpl in Heq. lia.
  - rewrite !append_cons in Heq. injection Heq as -> Heq.
    f_equal. apply IH. exact Heq.
Qed.

Lemma format_d_inj m n : format_d m = format_d n -> m = n.
Proof.
  unfold format_d. intros Heq.
  assert (forall z, Z.to_int z <> Decimal.Pos Decimal.Nil /\
                    Z.to_int z <> Decimal.Neg Decimal.Nil) as Hvalid.
  { intros [|p|p]; simpl; split; try discriminate;
      intros [= Hnil]; exact (DecimalPos.Unsigned.to_uint_nonnil p Hnil). }
  assert (Some (Z.to_int m) = Some (Z.to_int n)) as Hint.
  { destruct (Hvalid m) as [Hm1 Hm2]. destruct (Hvalid n) as [Hn1 Hn2].
    rewrite <- (NilZero.isi _ Hm1 Hm2), <- (NilZero.isi _ Hn1 Hn2), Heq.
    reflexivity. }
  injection Hint as Hint.
  rewrite <- (DecimalZ.of_to m), <- (DecimalZ.of_to n), Hint. reflexivity.
Qed.

(** X18: the display of an object tells its index, and nothing else: two
    objects are displayed alike exactly when their indexes are equal. *)
Theorem burp_repr_tells_index `{UrlLib} (b1 b2 : Burp) :
  burp_repr b1 = burp_repr b2 <-> index b1 = index b2.
Proof.
  unfold burp_repr. split.
  - intros Heq. apply String.app_inj in Heq.
    apply append_inv_tail in Heq. apply format_d_inj. exact Heq.
  - intros ->. reflexivity.
Qed.

Example burp_repr_sample :
  burp_repr Sample.login = "<Burp 0>" /\
  burp_repr (empty_burp (-12)) = "<Burp -12>".
Proof. split; reflexivity. Qed.
